(** * A caching Maven proxy worker: the request pipeline of [src/index.ts]

    The worker validates the requested path, answers CORS preflights,
    serves GET and HEAD from a shared response cache and otherwise fetches
    from GitHub Packages with a bearer token, caching what it got.

    The embedding follows the source function by function.  The platform
    the worker runs on (strings, [RegExp], [Response], the cache, the
    network) is modelled just far enough to run the handler. *)

From Stdlib Require Import String Ascii ZArith.
From stdpp Require Import base option list strings gmap pretty.

Local Open Scope string_scope.
Local Open Scope list_scope.
Local Open Scope Z_scope.

(** ** The string methods the worker calls *)

Module JS.

(** [s.startsWith(p)] *)
Fixpoint startsWith (s p : string) : bool :=
  match p, s with
  | EmptyString, _ => true
  | String a p', String b s' => if Ascii.eqb a b then startsWith s' p' else false
  | String _ _, EmptyString => false
  end.

(** [s.slice(1)] *)
Definition slice1 (s : string) : string :=
  match s with
  | EmptyString => EmptyString
  | String _ s' => s'
  end.

(** [s.endsWith(suffix)]: the last [suffix.length] characters of [s] are
    [suffix]. *)
Definition endsWith (s suffix : string) : bool :=
  let n := String.length s in
  let k := String.length suffix in
  if (k <=? n)%nat then String.eqb (substring (n - k) k s) suffix else false.

(** [s.split(sep)] for a one-character separator.  The result has one more
    entry than [s] has separators, so it is a head and a tail: the empty
    string splits into one empty entry. *)
Fixpoint split_ne (sep : ascii) (s : string) : string * list string :=
  match s with
  | EmptyString => (EmptyString, [])
  | String c s' =>
      let '(h, t) := split_ne sep s' in
      if Ascii.eqb c sep then (EmptyString, h :: t) else (String c h, t)
  end.

Definition split (sep : ascii) (s : string) : list string :=
  let '(h, t) := split_ne sep s in h :: t.

(** White space as [trim] sees it.  A string here is a sequence of
    code units below 256; among them the white space and line terminators
    are TAB, LF, VT, FF, CR, SPACE and the no-break space U+00A0. *)
Definition isWhiteSpace (c : ascii) : bool :=
  let n := nat_of_ascii c in
  ((9 <=? n)%nat && (n <=? 13)%nat) || (n =? 32)%nat || (n =? 160)%nat.

Fixpoint trimStart (s : string) : string :=
  match s with
  | EmptyString => EmptyString
  | String c s' => if isWhiteSpace c then trimStart s' else s
  end.

Fixpoint trimEnd (s : string) : string :=
  match s with
  | EmptyString => EmptyString
  | String c s' =>
      match trimEnd s' with
      | EmptyString => if isWhiteSpace c then EmptyString else String c EmptyString
      | t => String c t
      end
  end.

(** [s.trim()] *)
Definition trim (s : string) : string := trimEnd (trimStart s).

(** Truthiness of a value that is a string or [undefined]: only a
    non-empty string is truthy. *)
Definition truthy (v : option string) : bool :=
  match v with
  | Some (String _ _) => true
  | _ => false
  end.

(** ASCII lower-casing, as [Headers] applies it to header names. *)
Definition lowerChar (c : ascii) : ascii :=
  let n := nat_of_ascii c in
  if ((65 <=? n)%nat && (n <=? 90)%nat) then ascii_of_nat (n + 32) else c.

Fixpoint toLowerCase (s : string) : string :=
  match s with
  | EmptyString => EmptyString
  | String c s' => String (lowerChar c) (toLowerCase s')
  end.

(** A value between double quotes, as a template literal spells it. *)
Definition quoted (s : string) : string :=
  String (ascii_of_nat 34) (s +:+ String (ascii_of_nat 34) EmptyString).

(** [${v}] for a value that is a string or [undefined]. *)
Definition interpolate (v : option string) : string := default "undefined" v.

End JS.

(** ** Exceptions, console and the two effect layers *)

Inductive Exn : Type :=
  | SyntaxError (pattern : string)   (* [new RegExp(pattern)] refused *)
  | TypeError (message : string)     (* a method called on [undefined]; a failed [fetch];
                                        a body given to a status that has none *)
  | RangeError (message : string).   (* a response status outside 200..599 *)

Inductive Completion (A : Type) : Type :=
  | Returned (a : A)
  | Threw (e : Exn).
Arguments Returned {A} a.
Arguments Threw {A} e.

Inductive LogLevel : Type := LogInfo | LogWarn | LogError.

(** ** Regular expressions

    [RegExp] belongs to the JavaScript engine.  The worker only compiles a
    pattern, which may be refused, and tests a string against it. *)
Class RegExpEngine : Type := {
  RegExp : Type;
  regexp_new : string -> option RegExp;      (* [None]: SyntaxError *)
  regexp_test : RegExp -> string -> bool;
}.

(** ** Headers, responses, requests and the configuration *)

(** A [Headers] object: a map from lower-cased names to values. *)
Abbreviation Headers := (gmap string string).

Definition headers_set (name value : string) (h : Headers) : Headers :=
  <[JS.toLowerCase name := value]> h.

Definition headers_get (name : string) (h : Headers) : option string :=
  h !! JS.toLowerCase name.

(** [new Headers({ n1: v1, ... })] *)
Definition headers_of (entries : list (string * string)) : Headers :=
  foldl (fun h e => headers_set e.1 e.2 h) ∅ entries.

(** A [Response] as the pipeline reads and builds it.  A [null] body is
    [None]. *)
Record Response : Type := mkResponse {
  status : Z;
  statusText : string;
  headers : Headers;
  body : option string;
}.

(** The second argument of [new Response(body, init)]; a field left out of
    the object literal is [None]. *)
Record ResponseInit : Type := mkInit {
  init_status : option Z;
  init_statusText : option string;
  init_headers : Headers;
}.

(** [new Response(body, init)] for a body that is [null] or the body of an
    existing response, with the status of that response or none: status 200
    and an empty status text unless given, and a copy of the headers.  These
    constructions are always accepted: without a body only the range of the
    status is checked, and the status and the body of an existing response
    were accepted together when it was made. *)
Definition new_Response (b : option string) (init : ResponseInit) : Response :=
  {| status := default 200 (init_status init);
     statusText := default EmptyString (init_statusText init);
     headers := init_headers init;
     body := b |}.

(** The statuses a response may be constructed with. *)
Definition statusInRange (s : Z) : bool := (200 <=? s) && (s <=? 599).

(** The statuses that cannot carry a body. *)
Definition nullBodyStatus (s : Z) : bool :=
  (s =? 101) || (s =? 103) || (s =? 204) || (s =? 205) || (s =? 304).

(** The statuses [new Response] accepts together with a text. *)
Definition acceptsBody (s : Z) : bool := statusInRange s && negb (nullBodyStatus s).

(** A text body brings its content type, unless the headers name one. *)
Definition withContentType (h : Headers) : Headers :=
  match h !! "content-type" with
  | Some _ => h
  | None => <["content-type" := "text/plain;charset=UTF-8"]> h
  end.

(** What [new Response(text, init)] yields when it is accepted. *)
Definition textResponse (text : string) (init : ResponseInit) : Response :=
  new_Response (Some text)
    {| init_status := init_status init;
       init_statusText := init_statusText init;
       init_headers := withContentType (init_headers init) |}.

(** [response.ok] *)
Definition ok (r : Response) : bool := (200 <=? status r) && (status r <=? 299).

(** [response.clone()] *)
Definition clone (r : Response) : Response := r.

(** A [Request] the worker builds: the cache key and the upstream call. *)
Record Request : Type := mkRequest {
  url : string;
  method : string;
  req_headers : Headers;
}.

(** The inbound request, as far as the handler reads it: [request.method],
    [new URL(request.url).pathname] and [request.headers]. *)
Record InboundRequest : Type := mkInbound {
  in_method : string;
  in_pathname : string;
  in_headers : Headers;
}.

(** Modelled from the spec: the [Env] type declaration is not among the
    sources.  The configuration surface is the upstream owner and repository
    identifiers, the bearer credential, an optional comma-separated allow-list
    of path patterns and a comma-separated allow-list of extensions.  A
    binding that is not configured reads as [undefined], here [None]. *)
Record Env : Type := mkEnv {
  GITHUB_OWNER : string;
  GITHUB_REPO : string;
  GITHUB_TOKEN : option string;
  ALLOWED_PATHS : option string;
  ALLOWED_EXTENSIONS : option string;
}.

(** ** What a run of the handler does to the outside *)

Inductive Event : Type :=
  | Console (level : LogLevel) (message : string)
  | CacheMatch (key : Request)
  | CachePut (key : Request) (stored : Response)
  | Fetch (request : Request).

(** The shared cache, a store of responses addressed by the URL of the key
    request (every key the worker builds is a GET). *)
Abbreviation Cache := (gmap string Response).

(** Synchronous helpers log and may throw. *)
Definition Sync (A : Type) : Type := Completion A * list Event.

(** The handler also reads and writes the cache.  A run is followed on its
    own, from the cache it starts with: what other runs do to the cache while
    this one waits is not part of it. *)
Definition Async (A : Type) : Type := Cache -> Completion A * Cache * list Event.

Global Instance Sync_ret : MRet Sync := fun A a => (Returned a, []).
Global Instance Sync_bind : MBind Sync := fun A B f m =>
  match m.1 with
  | Returned a => let r := f a in (r.1, m.2 ++ r.2)
  | Threw e => (Threw e, m.2)
  end.

Global Instance Async_ret : MRet Async := fun A a c => (Returned a, c, []).
Global Instance Async_bind : MBind Async := fun A B f m c =>
  match m c with
  | (Returned a, c1, t1) =>
      match f a c1 with
      | (r, c2, t2) => (r, c2, t1 ++ t2)
      end
  | (Threw e, c1, t1) => (Threw e, c1, t1)
  end.

Definition throw {A} (e : Exn) : Sync A := (Threw e, []).

Definition console (level : LogLevel) (message : string) : Sync unit :=
  (Returned tt, [Console level message]).

(** [new Response(text, init)]: a status outside 200..599 is a RangeError,
    a status that cannot carry a body is a TypeError. *)
Definition new_Response_text (text : string) (init : ResponseInit) : Sync Response :=
  let s := default 200 (init_status init) in
  if negb (statusInRange s) then
    throw (RangeError "The status provided is outside the range [200, 599]")
  else if nullBodyStatus s then
    throw (TypeError "Response with null body status cannot have body")
  else mret (textResponse text init).

(** A synchronous call made from the handler. *)
Definition call {A} (m : Sync A) : Async A := fun c => (m.1, c, m.2).

(** [try { m } catch (error) { h error }] *)
Definition try_catch {A} (m : Async A) (h : Exn -> Async A) : Async A := fun c =>
  match m c with
  | (Threw e, c1, t1) =>
      match h e c1 with
      | (r, c2, t2) => (r, c2, t1 ++ t2)
      end
  | done => done
  end.

(** [await cache.match(key)] *)
Definition cache_match (key : Request) : Async (option Response) := fun c =>
  (Returned (c !! url key), c, [CacheMatch key]).

(** [ctx.waitUntil(cache.put(key, r))]: the store is started at once and
    kept alive by the context; the handler does not wait for it. *)
Definition waitUntil_cache_put (key : Request) (r : Response) : Async unit := fun c =>
  (Returned tt, <[url key := r]> c, [CachePut key r]).

(** ** The worker *)

Section Worker.

Context {engine : RegExpEngine}.

(** The upstream registry as the worker's [fetch] sees it: a response of
    any status, or a network-level failure thrown from the call. *)
Variable upstream : Request -> Completion Response.

(** [await fetch(newRequest)] *)
Definition upstream_fetch (req : Request) : Async Response := fun c =>
  (upstream req, c, [Fetch req]).

(** [stripBody] *)
Definition stripBody (response : Response) : Response :=
  new_Response None
    {| init_status := Some (status response);
       init_statusText := Some (statusText response);
       init_headers := headers response |}.

(** The first loop of [isAllowedPath]: every entry is trimmed and compiled,
    in order; the first one refused throws. *)
Fixpoint compilePatterns (split : list string) : Sync (list RegExp) :=
  match split with
  | [] => mret []
  | s :: rest =>
      match regexp_new (JS.trim s) with
      | None => throw (SyntaxError (JS.trim s))
      | Some pkg => allowedPackages ← compilePatterns rest; mret (pkg :: allowedPackages)
      end
  end.

(** The second loop of [isAllowedPath]: the first matcher that accepts
    [url] ends it. *)
Fixpoint anyMatch (allowedPackages : list RegExp) (url : string) : bool :=
  match allowedPackages with
  | [] => false
  | pkg :: rest => if regexp_test pkg url then true else anyMatch rest url
  end.

Definition isAllowedPath (env : Env) (url : string) : Sync bool :=
  if JS.truthy (ALLOWED_PATHS env) then
    let allowed := default EmptyString (ALLOWED_PATHS env) in
    let split := JS.split "," allowed in
    allowedPackages ← compilePatterns split;
    if (length allowedPackages =? 0)%nat then mret true
    else if anyMatch allowedPackages url then mret true
    else
      console LogWarn
        ("Request for path " +:+ JS.quoted url
           +:+ " is not allowed by ALLOWED_PATHS: " +:+ allowed);;
      mret false
  else mret true.

Definition isAllowedExtension (env : Env) (path : string) : Sync bool :=
  match ALLOWED_EXTENSIONS env with
  | None => throw (TypeError "Cannot read properties of undefined (reading 'split')")
  | Some extensions =>
      let allowedExtensions := JS.split "," extensions in
      mret (existsb (fun ext => JS.endsWith path ext) allowedExtensions)
  end.

(** [cacheTtl = 60 * 5] *)
Definition cacheTtl : Z := 60 * 5.

Definition corsOnly : Headers :=
  headers_of [("Access-Control-Allow-Origin", "*")].

Definition badPath : Response :=
  textResponse "Invalid request (bad path)"
    {| init_status := Some 404; init_statusText := None; init_headers := corsOnly |}.

Definition badExtension : Response :=
  textResponse "Invalid request (bad extension)"
    {| init_status := Some 404; init_statusText := None; init_headers := corsOnly |}.

Definition preflight : Response :=
  new_Response None
    {| init_status := None; init_statusText := None;
       init_headers := headers_of
         [("Access-Control-Allow-Origin", "*");
          ("Access-Control-Allow-Methods", "GET, OPTIONS");
          ("Access-Control-Allow-Headers", "Accept, HEAD")] |}.

Definition methodNotAllowed : Response :=
  textResponse "Method not allowed"
    {| init_status := Some 405; init_statusText := None; init_headers := corsOnly |}.

Definition internalError : Response :=
  textResponse "Internal server error"
    {| init_status := Some 500; init_statusText := None; init_headers := ∅ |}.

(** The path the handler works on: the pathname without its leading
    slash. *)
Definition strippedPath (request : InboundRequest) : string :=
  let path := in_pathname request in
  if JS.startsWith path "/" then JS.slice1 path else path.

Definition githubMavenUrl (env : Env) : string :=
  "https://maven.pkg.github.com/" +:+ GITHUB_OWNER env +:+ "/" +:+ GITHUB_REPO env +:+ "/".

Definition targetUrl (env : Env) (path : string) : string :=
  githubMavenUrl env +:+ path.

(** [new Request(targetUrl, { method: 'GET' })] *)
Definition cacheKey (env : Env) (path : string) : Request :=
  {| url := targetUrl env path; method := "GET"; req_headers := ∅ |}.

(** [request.headers.get('Accept') || 'application/octet-stream'] *)
Definition acceptOf (request : InboundRequest) : string :=
  let accept := headers_get "Accept" (in_headers request) in
  if JS.truthy accept then JS.interpolate accept else "application/octet-stream".

(** [new Request(targetUrl, { method: 'GET', headers: ... })], for header
    values the platform accepts as they are. *)
Definition newRequest (env : Env) (request : InboundRequest) (path : string) : Request :=
  {| url := targetUrl env path;
     method := "GET";
     req_headers := headers_of
       [("Authorization", "Bearer " +:+ JS.interpolate (GITHUB_TOKEN env));
        ("Accept", acceptOf request);
        ("User-Agent", "Cloudflare-Worker-Maven-Proxy");
        ("Access-Control-Allow-Origin", "*")] |}.

(** The second argument of the [new Response] for an upstream answer that
    is not [ok]. *)
Definition failInit (response : Response) : ResponseInit :=
  {| init_status := Some (status response);
     init_statusText := None;
     init_headers := headers_of
       [("Access-Control-Allow-Origin", "*");
        ("Cache-Control", "public, max-age=" +:+ pretty cacheTtl)] |}.

(** The response built for an upstream answer that is not [ok], when its
    status accepts the text. *)
Definition failOf (response : Response) : Response :=
  textResponse ("Failed to fetch from GitHub Packages: " +:+ statusText response)
    (failInit response).

(** The response built for an [ok] upstream answer, after the two
    [headers.set] calls. *)
Definition cacheResponseOf (response : Response) : Response :=
  let cacheResponse :=
    new_Response (body response)
      {| init_status := Some (status response);
         init_statusText := Some (statusText response);
         init_headers := headers response |} in
  {| status := status cacheResponse;
     statusText := statusText cacheResponse;
     headers :=
       headers_set "Access-Control-Allow-Origin" "*"
         (headers_set "Cache-Control" ("public, max-age=" +:+ pretty cacheTtl)
            (headers cacheResponse));
     body := body cacheResponse |}.

(** The body of the [try] block. *)
Definition fetchAndCache (env : Env) (request : InboundRequest) (path : string)
    : Async Response :=
  response ← upstream_fetch (newRequest env request path);
  call (console LogInfo
          ("Response status from GitHub Packages: " +:+ pretty (status response)));;
  if negb (ok response) then
    call (console LogWarn "Failed to fetch from GitHub Packages");;
    fail ← call (new_Response_text
                   ("Failed to fetch from GitHub Packages: " +:+ statusText response)
                   (failInit response));
    waitUntil_cache_put (cacheKey env path) (clone fail);;
    mret fail
  else
    let cacheResponse := cacheResponseOf response in
    waitUntil_cache_put (cacheKey env path) (clone cacheResponse);;
    call (console LogInfo
            ("Cached response for " +:+ targetUrl env path +:+ " for "
               +:+ pretty cacheTtl +:+ " seconds"));;
    mret (if String.eqb (in_method request) "HEAD"
          then stripBody cacheResponse else cacheResponse).

(** The handler, [fetch(request, env, ctx)]. *)
Definition fetch (request : InboundRequest) (env : Env) : Async Response :=
  let githubToken := GITHUB_TOKEN env in
  let path := strippedPath request in
  allowedPath ← call (isAllowedPath env path);
  if negb allowedPath then
    call (new_Response_text "Invalid request (bad path)"
            {| init_status := Some 404; init_statusText := None;
               init_headers := corsOnly |})
  else
    call (console LogInfo ("Request for path: " +:+ path));;
    allowedExtension ← call (isAllowedExtension env path);
    if negb allowedExtension then
      call (new_Response_text "Invalid request (bad extension)"
              {| init_status := Some 404; init_statusText := None;
                 init_headers := corsOnly |})
    else
      call (console LogInfo ("Request for path with allowed extension: " +:+ path));;
      if String.eqb (in_method request) "OPTIONS" then mret preflight
      else if negb (String.eqb (in_method request) "GET")
              && negb (String.eqb (in_method request) "HEAD")
      then
        call (new_Response_text "Method not allowed"
                {| init_status := Some 405; init_statusText := None;
                   init_headers := corsOnly |})
      else
        cachedResponse ← cache_match (cacheKey env path);
        match cachedResponse with
        | Some cached =>
            mret (if String.eqb (in_method request) "HEAD"
                  then stripBody cached else clone cached)
        | None =>
            call (console LogInfo
                    ("Fetching from GitHub Packages: " +:+ targetUrl env path));;
            if negb (JS.truthy githubToken) then
              call (console LogError "GitHub token is not set");;
              call (new_Response_text "Internal server error"
                      {| init_status := Some 500; init_statusText := None;
                         init_headers := ∅ |})
            else
              try_catch (fetchAndCache env request path)
                (fun error =>
                   call (console LogError "Internal server error");;
                   call (new_Response_text "Internal server error"
                           {| init_status := Some 500; init_statusText := None;
                              init_headers := ∅ |}))
        end.

End Worker.

(** ** Reading a trace *)

Definition isConsole (e : Event) : bool :=
  match e with Console _ _ => true | _ => false end.

Definition isFetch (e : Event) : bool :=
  match e with Fetch _ => true | _ => false end.

Definition isCachePut (e : Event) : bool :=
  match e with CachePut _ _ => true | _ => false end.

(** Nothing but console output happened. *)
Definition consoleOnly (trace : list Event) : bool := forallb isConsole trace.

(** The upstream was not contacted. *)
Definition noFetch (trace : list Event) : bool := forallb (fun e => negb (isFetch e)) trace.

(** Nothing was stored in the cache. *)
Definition noCachePut (trace : list Event) : bool :=
  forallb (fun e => negb (isCachePut e)) trace.

(** The two lines the handler logs while it validates. *)
Definition validationLog (path : string) : list Event :=
  [Console LogInfo ("Request for path: " +:+ path);
   Console LogInfo ("Request for path with allowed extension: " +:+ path)].

(** What a GET or HEAD is answered with: the response itself, or for HEAD
    its copy without a body. *)
Definition shapedFor (request : InboundRequest) (r : Response) : Response :=
  if String.eqb (in_method request) "HEAD" then stripBody r else r.

(** The events of a cache miss up to the point where the credential is
    looked at. *)
Definition missLog (env : Env) (path : string) : list Event :=
  [CacheMatch (cacheKey env path);
   Console LogInfo ("Fetching from GitHub Packages: " +:+ targetUrl env path)].

(** How often a trace calls the upstream, and how often it stores. *)
Definition fetchCount (trace : list Event) : nat := length (List.filter isFetch trace).

Definition putCount (trace : list Event) : nat := length (List.filter isCachePut trace).

(** The line [isAllowedPath] warns with when it refuses [url]. *)
Definition denialLog (env : Env) (url : string) : list Event :=
  [Console LogWarn
     ("Request for path " +:+ JS.quoted url
        +:+ " is not allowed by ALLOWED_PATHS: "
        +:+ default EmptyString (ALLOWED_PATHS env))].

(** An entry as the worker stores it: with the freshness window and the
    permissive CORS header. *)
Definition annotated (r : Response) : Prop :=
  headers_get "Cache-Control" (headers r) = Some "public, max-age=300"
  /\ headers_get "Access-Control-Allow-Origin" (headers r) = Some "*".

(** ** A small engine and a small world for concrete runs *)

Module Literal.

(** [s.includes(p)] *)
Fixpoint includes (s p : string) : bool :=
  JS.startsWith s p ||
  match s with
  | EmptyString => false
  | String _ s' => includes s' p
  end.

Definition isSyntax (c : ascii) : bool :=
  existsb (Ascii.eqb c) (list_ascii_of_string "\^$.|?*+()[]{}").

Definition literal (p : string) : bool :=
  negb (existsb isSyntax (list_ascii_of_string p)).

(** An engine for patterns without syntax characters, which match where
    they occur; it refuses every other pattern, among them the
    unterminated group ["("]. *)
Global Instance engine : RegExpEngine := {|
  RegExp := string;
  regexp_new p := if literal p then Some p else None;
  regexp_test p s := includes s p;
|}.

End Literal.

Module Sample.

Definition env : Env :=
  {| GITHUB_OWNER := "acme"; GITHUB_REPO := "libs";
     GITHUB_TOKEN := Some "s3cret";
     ALLOWED_PATHS := None;
     ALLOWED_EXTENSIONS := Some ".jar,.pom" |}.

Definition get (pathname : string) : InboundRequest :=
  {| in_method := "GET"; in_pathname := pathname; in_headers := ∅ |}.

Definition head (pathname : string) : InboundRequest :=
  {| in_method := "HEAD"; in_pathname := pathname; in_headers := ∅ |}.

Definition options (pathname : string) : InboundRequest :=
  {| in_method := "OPTIONS"; in_pathname := pathname; in_headers := ∅ |}.

(** The same configuration with one setting changed. *)
Definition noToken : Env :=
  {| GITHUB_OWNER := "acme"; GITHUB_REPO := "libs";
     GITHUB_TOKEN := None;
     ALLOWED_PATHS := None;
     ALLOWED_EXTENSIONS := Some ".jar,.pom" |}.

Definition noExtensions : Env :=
  {| GITHUB_OWNER := "acme"; GITHUB_REPO := "libs";
     GITHUB_TOKEN := Some "s3cret";
     ALLOWED_PATHS := None;
     ALLOWED_EXTENSIONS := None |}.

Definition trailingComma : Env :=
  {| GITHUB_OWNER := "acme"; GITHUB_REPO := "libs";
     GITHUB_TOKEN := Some "s3cret";
     ALLOWED_PATHS := None;
     ALLOWED_EXTENSIONS := Some ".jar," |}.

Definition emptyAllowList : Env :=
  {| GITHUB_OWNER := "acme"; GITHUB_REPO := "libs";
     GITHUB_TOKEN := Some "s3cret";
     ALLOWED_PATHS := Some EmptyString;
     ALLOWED_EXTENSIONS := Some ".jar,.pom" |}.

(** The second pattern is an unterminated group. *)
Definition brokenPattern : Env :=
  {| GITHUB_OWNER := "acme"; GITHUB_REPO := "libs";
     GITHUB_TOKEN := Some "s3cret";
     ALLOWED_PATHS := Some "com/acme,(";
     ALLOWED_EXTENSIONS := Some ".jar,.pom" |}.

Definition down : Response :=
  {| status := 503; statusText := "Service Unavailable";
     headers := ∅; body := Some "upstream is down" |}.

Definition artifact : Response :=
  {| status := 200; statusText := "OK";
     headers := headers_of [("Content-Type", "application/java-archive")];
     body := Some "BYTES" |}.

(** Two path patterns, with blanks around the second. *)
Definition restricted : Env :=
  {| GITHUB_OWNER := "acme"; GITHUB_REPO := "libs";
     GITHUB_TOKEN := Some "s3cret";
     ALLOWED_PATHS := Some "com/acme, org/lib ";
     ALLOWED_EXTENSIONS := Some ".jar,.pom" |}.

Definition post (pathname : string) : InboundRequest :=
  {| in_method := "POST"; in_pathname := pathname; in_headers := ∅ |}.

(** A GET that asks for a POM. *)
Definition getPom (pathname : string) : InboundRequest :=
  {| in_method := "GET"; in_pathname := pathname;
     in_headers := headers_of [("Accept", "application/xml")] |}.

(** The same two patterns without the blanks. *)
Definition restrictedTight : Env :=
  {| GITHUB_OWNER := "acme"; GITHUB_REPO := "libs";
     GITHUB_TOKEN := Some "s3cret";
     ALLOWED_PATHS := Some "com/acme,org/lib";
     ALLOWED_EXTENSIONS := Some ".jar,.pom" |}.

(** An upstream that is reachable and down. *)
Definition unavailable (_ : Request) : Completion Response := Returned down.

(** An upstream that serves every artifact. *)
Definition serving (_ : Request) : Completion Response := Returned artifact.

Definition notModified : Response :=
  {| status := 304; statusText := "Not Modified"; headers := ∅; body := None |}.

(** An upstream that answers 304. *)
Definition revalidating (_ : Request) : Completion Response := Returned notModified.

(** An upstream that cannot be reached. *)
Definition unreachable (_ : Request) : Completion Response :=
  Threw (TypeError "fetch failed").

(** A cache that holds the artifact under the key of [a/b.jar]. *)
Definition warm : Cache :=
  {[ "https://maven.pkg.github.com/acme/libs/a/b.jar" := cacheResponseOf artifact ]}.

End Sample.

(** ** Strings *)

Lemma substring_zero (n : nat) (s : string) : substring n 0 s = EmptyString.
Proof.
  revert s; induction n as [|n IH]; intros [|c s]; simpl; auto.
Qed.

Lemma endsWith_empty (s : string) : JS.endsWith s EmptyString = true.
Proof.
  unfold JS.endsWith; simpl. now rewrite substring_zero.
Qed.

Lemma split_not_nil (sep : ascii) (s : string) : JS.split sep s <> [].
Proof.
  unfold JS.split. destruct (JS.split_ne sep s); discriminate.
Qed.

(** A text that ends with the separator splits into a list that has an
    empty entry after the head. *)
Lemma split_trailing_separator (sep : ascii) (s : string) :
  In EmptyString (JS.split_ne sep (s +:+ String sep EmptyString)).2.
Proof.
  induction s as [|c s IH]; simpl.
  - rewrite Ascii.eqb_refl. simpl. auto.
  - destruct (JS.split_ne sep (s +:+ String sep EmptyString)) as [h t].
    simpl in IH. destruct (Ascii.eqb c sep); simpl; auto.
Qed.

Lemma split_trailing_separator_entry (sep : ascii) (s : string) :
  In EmptyString (JS.split sep (s +:+ String sep EmptyString)).
Proof.
  pose proof (split_trailing_separator sep s) as H. unfold JS.split.
  destruct (JS.split_ne sep (s +:+ String sep EmptyString)) as [h t].
  right. exact H.
Qed.

Example split_two_extensions : JS.split "," ".jar,.pom" = [".jar"; ".pom"].
Proof. reflexivity. Qed.

Example split_empty_text : JS.split "," EmptyString = [EmptyString].
Proof. reflexivity. Qed.

Example trim_both_ends : JS.trim "  ^com/acme/ " = "^com/acme/".
Proof. reflexivity. Qed.

Example endsWith_jar : JS.endsWith "a/b.jar" ".jar" = true.
Proof. reflexivity. Qed.

Example endsWith_jarx : JS.endsWith "a/b.jarx" ".jar" = false.
Proof. reflexivity. Qed.

Lemma consoleOnly_noFetch (trace : list Event) :
  consoleOnly trace = true -> noFetch trace = true.
Proof.
  unfold consoleOnly, noFetch. induction trace as [|[] trace IH]; simpl; auto; discriminate.
Qed.

Lemma consoleOnly_noCachePut (trace : list Event) :
  consoleOnly trace = true -> noCachePut trace = true.
Proof.
  unfold consoleOnly, noCachePut. induction trace as [|[] trace IH]; simpl; auto; discriminate.
Qed.

Lemma noFetch_app (t1 t2 : list Event) :
  noFetch (t1 ++ t2) = noFetch t1 && noFetch t2.
Proof. apply forallb_app. Qed.

Lemma noCachePut_app (t1 t2 : list Event) :
  noCachePut (t1 ++ t2) = noCachePut t1 && noCachePut t2.
Proof. apply forallb_app. Qed.

Lemma consoleOnly_app (t1 t2 : list Event) :
  consoleOnly (t1 ++ t2) = consoleOnly t1 && consoleOnly t2.
Proof. apply forallb_app. Qed.

(** ** Constructing a response with a text *)

Lemma new_Response_text_accepted (text : string) (init : ResponseInit) :
  acceptsBody (default 200 (init_status init)) = true ->
  new_Response_text text init = (Returned (textResponse text init), []).
Proof.
  unfold acceptsBody, new_Response_text. intros H.
  apply andb_true_iff in H as [Hrange Hnull]. rewrite Hrange. simpl.
  apply negb_true_iff in Hnull. rewrite Hnull. reflexivity.
Qed.

Lemma new_Response_text_refused (text : string) (init : ResponseInit) :
  acceptsBody (default 200 (init_status init)) = false ->
  exists e, new_Response_text text init = (Threw e, []).
Proof.
  unfold acceptsBody, new_Response_text. intros H.
  destruct (statusInRange (default 200 (init_status init))); simpl in *.
  - apply negb_false_iff in H. rewrite H. eauto.
  - eauto.
Qed.

(** ** The authorizers *)

Section Authorizers.

Context {engine : RegExpEngine}.

(** Compiling logs nothing. *)
Lemma compilePatterns_silent (split : list string) :
  (compilePatterns split).2 = [].
Proof.
  induction split as [|s rest IH]; simpl; [reflexivity|].
  destruct (regexp_new (JS.trim s)); [|reflexivity].
  unfold mbind, Sync_bind.
  destruct (compilePatterns rest) as [[pkgs|e] t]; simpl in *; subst; reflexivity.
Qed.

(** One refused entry is enough for the whole list to be refused, at the
    first such entry. *)
Lemma compilePatterns_refused (split : list string) (s : string) :
  In s split -> regexp_new (JS.trim s) = None ->
  exists p, compilePatterns split = (Threw (SyntaxError p), [])
            /\ In p (map JS.trim split) /\ regexp_new p = None.
Proof.
  induction split as [|s0 rest IH]; simpl; [tauto|].
  intros Hin Hbad.
  destruct (regexp_new (JS.trim s0)) eqn:E0.
  - destruct Hin as [->|Hin]; [congruence|].
    destruct (IH Hin Hbad) as (p & Hp & Hpin & Hpbad).
    exists p. rewrite Hp. unfold mbind, Sync_bind; simpl. auto.
  - exists (JS.trim s0). auto.
Qed.

(** [isAllowedPath] only ever writes to the console. *)
Lemma isAllowedPath_console (env : Env) (path : string) :
  consoleOnly (isAllowedPath env path).2 = true.
Proof.
  unfold isAllowedPath.
  destruct (JS.truthy (ALLOWED_PATHS env)); [|reflexivity].
  unfold mbind, Sync_bind.
  pose proof (compilePatterns_silent (JS.split "," (default EmptyString (ALLOWED_PATHS env)))) as Hs.
  destruct (compilePatterns _) as [[pkgs|e] t]; simpl in *; subst; [|reflexivity].
  destruct (length pkgs =? 0)%nat; [reflexivity|].
  destruct (anyMatch pkgs path); reflexivity.
Qed.

End Authorizers.

(** ** The handler, branch by branch *)

Section Pipeline.

Context {engine : RegExpEngine}.
Variable upstream : Request -> Completion Response.

Ltac enter_fetch Hpath Hext :=
  unfold fetch, mbind, Async_bind, call, mret, Async_ret, cache_match;
  rewrite Hpath; cbn [fst snd negb]; rewrite Hext; cbn [fst snd negb].

Ltac step :=
  cbn -[targetUrl String.append pretty failOf cacheResponseOf newRequest stripBody
        insert validationLog new_Response_text failInit].

Ltac enter_try :=
  unfold try_catch, fetchAndCache, mbind, Async_bind, call, mret, Async_ret,
    upstream_fetch, waitUntil_cache_put, clone.

Lemma fetch_cache_hit (request : InboundRequest) (env : Env) (c : Cache)
    (tr : list Event) (cached : Response) :
  isAllowedPath env (strippedPath request) = (Returned true, tr) ->
  isAllowedExtension env (strippedPath request) = (Returned true, []) ->
  in_method request = "GET" \/ in_method request = "HEAD" ->
  c !! targetUrl env (strippedPath request) = Some cached ->
  fetch upstream request env c =
    (Returned (shapedFor request cached), c,
     tr ++ validationLog (strippedPath request)
        ++ [CacheMatch (cacheKey env (strippedPath request))]).
Proof.
  intros Hpath Hext Hm Hc. unfold shapedFor.
  enter_fetch Hpath Hext.
  destruct Hm as [Hm|Hm]; rewrite Hm; step; rewrite Hc; reflexivity.
Qed.

Lemma fetch_no_token (request : InboundRequest) (env : Env) (c : Cache)
    (tr : list Event) :
  isAllowedPath env (strippedPath request) = (Returned true, tr) ->
  isAllowedExtension env (strippedPath request) = (Returned true, []) ->
  in_method request = "GET" \/ in_method request = "HEAD" ->
  c !! targetUrl env (strippedPath request) = None ->
  JS.truthy (GITHUB_TOKEN env) = false ->
  fetch upstream request env c =
    (Returned internalError, c,
     tr ++ validationLog (strippedPath request)
        ++ missLog env (strippedPath request)
        ++ [Console LogError "GitHub token is not set"]).
Proof.
  intros Hpath Hext Hm Hc Htok.
  enter_fetch Hpath Hext.
  destruct Hm as [Hm|Hm]; rewrite Hm; step; rewrite Hc, Htok; reflexivity.
Qed.

Lemma fetch_network_failure (request : InboundRequest) (env : Env) (c : Cache)
    (tr : list Event) (error : Exn) :
  isAllowedPath env (strippedPath request) = (Returned true, tr) ->
  isAllowedExtension env (strippedPath request) = (Returned true, []) ->
  in_method request = "GET" \/ in_method request = "HEAD" ->
  c !! targetUrl env (strippedPath request) = None ->
  JS.truthy (GITHUB_TOKEN env) = true ->
  upstream (newRequest env request (strippedPath request)) = Threw error ->
  fetch upstream request env c =
    (Returned internalError, c,
     tr ++ validationLog (strippedPath request)
        ++ missLog env (strippedPath request)
        ++ [Fetch (newRequest env request (strippedPath request));
            Console LogError "Internal server error"]).
Proof.
  intros Hpath Hext Hm Hc Htok Hup.
  enter_fetch Hpath Hext.
  destruct Hm as [Hm|Hm]; rewrite Hm; step; rewrite Hc, Htok; step;
    enter_try; rewrite Hup; reflexivity.
Qed.

Lemma fetch_upstream_not_ok (request : InboundRequest) (env : Env) (c : Cache)
    (tr : list Event) (response : Response) :
  isAllowedPath env (strippedPath request) = (Returned true, tr) ->
  isAllowedExtension env (strippedPath request) = (Returned true, []) ->
  in_method request = "GET" \/ in_method request = "HEAD" ->
  c !! targetUrl env (strippedPath request) = None ->
  JS.truthy (GITHUB_TOKEN env) = true ->
  upstream (newRequest env request (strippedPath request)) = Returned response ->
  ok response = false ->
  acceptsBody (status response) = true ->
  fetch upstream request env c =
    (Returned (failOf response),
     <[targetUrl env (strippedPath request) := failOf response]> c,
     tr ++ validationLog (strippedPath request)
        ++ missLog env (strippedPath request)
        ++ [Fetch (newRequest env request (strippedPath request));
            Console LogInfo
              ("Response status from GitHub Packages: " +:+ pretty (status response));
            Console LogWarn "Failed to fetch from GitHub Packages";
            CachePut (cacheKey env (strippedPath request)) (failOf response)]).
Proof.
  intros Hpath Hext Hm Hc Htok Hup Hok Hacc.
  enter_fetch Hpath Hext.
  destruct Hm as [Hm|Hm]; rewrite Hm; step; rewrite Hc, Htok; step;
    enter_try; rewrite Hup; step; rewrite Hok; step;
    rewrite (new_Response_text_accepted _ (failInit response) Hacc); reflexivity.
Qed.

(** An upstream answer that is not [ok] and whose status does not accept a
    text: the construction of the failure response throws inside the [try],
    and the [catch] answers. *)
Lemma fetch_upstream_body_refused (request : InboundRequest) (env : Env) (c : Cache)
    (tr : list Event) (response : Response) :
  isAllowedPath env (strippedPath request) = (Returned true, tr) ->
  isAllowedExtension env (strippedPath request) = (Returned true, []) ->
  in_method request = "GET" \/ in_method request = "HEAD" ->
  c !! targetUrl env (strippedPath request) = None ->
  JS.truthy (GITHUB_TOKEN env) = true ->
  upstream (newRequest env request (strippedPath request)) = Returned response ->
  ok response = false ->
  acceptsBody (status response) = false ->
  fetch upstream request env c =
    (Returned internalError, c,
     tr ++ validationLog (strippedPath request)
        ++ missLog env (strippedPath request)
        ++ [Fetch (newRequest env request (strippedPath request));
            Console LogInfo
              ("Response status from GitHub Packages: " +:+ pretty (status response));
            Console LogWarn "Failed to fetch from GitHub Packages";
            Console LogError "Internal server error"]).
Proof.
  intros Hpath Hext Hm Hc Htok Hup Hok Hacc.
  destruct (new_Response_text_refused
              ("Failed to fetch from GitHub Packages: " +:+ statusText response)
              (failInit response) Hacc) as (e & He).
  enter_fetch Hpath Hext.
  destruct Hm as [Hm|Hm]; rewrite Hm; step; rewrite Hc, Htok; step;
    enter_try; rewrite Hup; step; rewrite Hok; step; rewrite He; reflexivity.
Qed.

Lemma fetch_upstream_ok (request : InboundRequest) (env : Env) (c : Cache)
    (tr : list Event) (response : Response) :
  isAllowedPath env (strippedPath request) = (Returned true, tr) ->
  isAllowedExtension env (strippedPath request) = (Returned true, []) ->
  in_method request = "GET" \/ in_method request = "HEAD" ->
  c !! targetUrl env (strippedPath request) = None ->
  JS.truthy (GITHUB_TOKEN env) = true ->
  upstream (newRequest env request (strippedPath request)) = Returned response ->
  ok response = true ->
  fetch upstream request env c =
    (Returned (shapedFor request (cacheResponseOf response)),
     <[targetUrl env (strippedPath request) := cacheResponseOf response]> c,
     tr ++ validationLog (strippedPath request)
        ++ missLog env (strippedPath request)
        ++ [Fetch (newRequest env request (strippedPath request));
            Console LogInfo
              ("Response status from GitHub Packages: " +:+ pretty (status response));
            CachePut (cacheKey env (strippedPath request)) (cacheResponseOf response);
            Console LogInfo
              ("Cached response for " +:+ targetUrl env (strippedPath request)
                 +:+ " for " +:+ pretty cacheTtl +:+ " seconds")]).
Proof.
  intros Hpath Hext Hm Hc Htok Hup Hok. unfold shapedFor.
  enter_fetch Hpath Hext.
  destruct Hm as [Hm|Hm]; rewrite Hm; step; rewrite Hc, Htok; step;
    enter_try; rewrite Hup; step; rewrite Hok, Hm; reflexivity.
Qed.

(** The trace of a hit contacts no upstream and stores nothing. *)
Lemma hit_trace_quiet (env : Env) (path : string) (tr : list Event) :
  consoleOnly tr = true ->
  noFetch (tr ++ validationLog path ++ [CacheMatch (cacheKey env path)]) = true
  /\ noCachePut (tr ++ validationLog path ++ [CacheMatch (cacheKey env path)]) = true.
Proof.
  intros Htr. rewrite noFetch_app, noCachePut_app.
  rewrite (consoleOnly_noFetch _ Htr), (consoleOnly_noCachePut _ Htr). auto.
Qed.

Lemma isAllowedPath_trace (env : Env) (path : string) (r : Completion bool)
    (tr : list Event) :
  isAllowedPath env path = (r, tr) -> consoleOnly tr = true.
Proof.
  intros H. pose proof (isAllowedPath_console env path) as Hc.
  now rewrite H in Hc.
Qed.

(** [stripBody] keeps the status line and the headers and drops the
    body. *)
Lemma stripBody_spec (r : Response) :
  status (stripBody r) = status r /\ statusText (stripBody r) = statusText r
  /\ headers (stripBody r) = headers r /\ body (stripBody r) = None.
Proof. repeat split. Qed.

(** HEAD on a hit: no body. *)
Lemma head_cache_hit_no_body (request : InboundRequest) (env : Env) (c : Cache)
    (tr : list Event) (cached : Response) :
  isAllowedPath env (strippedPath request) = (Returned true, tr) ->
  isAllowedExtension env (strippedPath request) = (Returned true, []) ->
  in_method request = "HEAD" ->
  c !! targetUrl env (strippedPath request) = Some cached ->
  exists r t, fetch upstream request env c = (Returned r, c, t)
              /\ body r = None /\ status r = status cached
              /\ headers r = headers cached.
Proof.
  intros Hpath Hext Hm Hc.
  rewrite (fetch_cache_hit _ _ _ _ _ Hpath Hext (or_intror Hm) Hc).
  unfold shapedFor. rewrite Hm. simpl. eauto 10.
Qed.

(** HEAD on a fresh successful fetch: no body. *)
Lemma head_fresh_ok_no_body (request : InboundRequest) (env : Env) (c : Cache)
    (tr : list Event) (response : Response) :
  isAllowedPath env (strippedPath request) = (Returned true, tr) ->
  isAllowedExtension env (strippedPath request) = (Returned true, []) ->
  in_method request = "HEAD" ->
  c !! targetUrl env (strippedPath request) = None ->
  JS.truthy (GITHUB_TOKEN env) = true ->
  upstream (newRequest env request (strippedPath request)) = Returned response ->
  ok response = true ->
  exists r c' t, fetch upstream request env c = (Returned r, c', t)
                 /\ body r = None /\ status r = status response.
Proof.
  intros Hpath Hext Hm Hc Htok Hup Hok.
  rewrite (fetch_upstream_ok _ _ _ _ _ Hpath Hext (or_intror Hm) Hc Htok Hup Hok).
  unfold shapedFor. rewrite Hm. simpl. eauto 10.
Qed.

(** HEAD on an upstream answer that is not [ok]: the failure text is the
    body, on every such request whose status accepts a text. *)
Lemma head_upstream_not_ok_body (request : InboundRequest) (env : Env) (c : Cache)
    (tr : list Event) (response : Response) :
  isAllowedPath env (strippedPath request) = (Returned true, tr) ->
  isAllowedExtension env (strippedPath request) = (Returned true, []) ->
  in_method request = "HEAD" ->
  c !! targetUrl env (strippedPath request) = None ->
  JS.truthy (GITHUB_TOKEN env) = true ->
  upstream (newRequest env request (strippedPath request)) = Returned response ->
  ok response = false ->
  acceptsBody (status response) = true ->
  exists r c' t, fetch upstream request env c = (Returned r, c', t)
    /\ body r = Some ("Failed to fetch from GitHub Packages: " +:+ statusText response).
Proof.
  intros Hpath Hext Hm Hc Htok Hup Hok Hacc.
  rewrite (fetch_upstream_not_ok _ _ _ _ _ Hpath Hext (or_intror Hm) Hc Htok Hup Hok Hacc).
  eauto 10.
Qed.

End Pipeline.


(** ** The properties of the pipeline *)

Section Properties.

Context {engine : RegExpEngine}.
Variable upstream : Request -> Completion Response.

Lemma isAllowedExtension_silent (env : Env) (path : string) :
  (isAllowedExtension env path).2 = [].
Proof.
  unfold isAllowedExtension. destruct (ALLOWED_EXTENSIONS env); reflexivity.
Qed.

(** Compiling keeps one matcher per entry, so the list of matchers of a
    configured allow-list is never empty. *)
Lemma compilePatterns_length (split : list string) (pkgs : list RegExp)
    (t : list Event) :
  compilePatterns split = (Returned pkgs, t) -> length pkgs = length split.
Proof.
  revert pkgs t. induction split as [|s rest IH]; simpl; intros pkgs t H.
  - injection H as <- _. reflexivity.
  - destruct (regexp_new (JS.trim s)); [|discriminate].
    unfold mbind, Sync_bind in H.
    destruct (compilePatterns rest) as [[pkgs'|e] t'] eqn:E; simpl in H; [|discriminate].
    injection H as <- _. simpl. f_equal. eapply IH. reflexivity.
Qed.

(** Inside the branch of a configured allow-list the list of matchers has an
    entry, so the test for an empty list there is never the one that
    answers. *)
Lemma allowedPackages_not_empty (allowed : string) (pkgs : list RegExp)
    (t : list Event) :
  compilePatterns (JS.split "," allowed) = (Returned pkgs, t) ->
  (length pkgs =? 0)%nat = false.
Proof.
  intros H. apply compilePatterns_length in H. rewrite H.
  pose proof (split_not_nil "," allowed) as Hne.
  destruct (JS.split "," allowed); [congruence | reflexivity].
Qed.

(** C2 (as the code has it): an OPTIONS request touches neither the cache nor
    the upstream, whatever the outcome: the cache is left as it was and the
    trace holds console lines only.  The authorizers run before the method is
    looked at, and the outcome follows them.  When the path passes both, the
    answer is the preflight response: status 200, no body, and exactly the
    three CORS headers.  When the path or its extension is refused, the
    answer is the 404 of that check, which carries the allow-origin header and
    neither of the other two preflight headers.  When an authorizer throws,
    the handler ends by that exception. *)
Theorem options_no_io_and_preflight (request : InboundRequest) (env : Env) (c : Cache) :
  in_method request = "OPTIONS" ->
  exists outcome t,
    fetch upstream request env c = (outcome, c, t)
    /\ consoleOnly t = true
    /\ (forall tr,
          isAllowedPath env (strippedPath request) = (Returned true, tr) ->
          isAllowedExtension env (strippedPath request) = (Returned true, []) ->
          exists r, outcome = Returned r
            /\ status r = 200 /\ body r = None
            /\ headers_get "Access-Control-Allow-Origin" (headers r) = Some "*"
            /\ headers_get "Access-Control-Allow-Methods" (headers r) = Some "GET, OPTIONS"
            /\ headers_get "Access-Control-Allow-Headers" (headers r) = Some "Accept, HEAD"
            /\ size (headers r) = 3%nat)
    /\ (forall tr,
          isAllowedPath env (strippedPath request) = (Returned false, tr) ->
          exists r, outcome = Returned r
            /\ status r = 404 /\ body r = Some "Invalid request (bad path)"
            /\ headers_get "Access-Control-Allow-Origin" (headers r) = Some "*"
            /\ headers_get "Access-Control-Allow-Methods" (headers r) = None
            /\ headers_get "Access-Control-Allow-Headers" (headers r) = None)
    /\ (forall tr,
          isAllowedPath env (strippedPath request) = (Returned true, tr) ->
          isAllowedExtension env (strippedPath request) = (Returned false, []) ->
          exists r, outcome = Returned r
            /\ status r = 404 /\ body r = Some "Invalid request (bad extension)"
            /\ headers_get "Access-Control-Allow-Origin" (headers r) = Some "*"
            /\ headers_get "Access-Control-Allow-Methods" (headers r) = None
            /\ headers_get "Access-Control-Allow-Headers" (headers r) = None)
    /\ (forall e tr,
          isAllowedPath env (strippedPath request) = (Threw e, tr) ->
          outcome = Threw e)
    /\ (forall e tr,
          isAllowedPath env (strippedPath request) = (Returned true, tr) ->
          isAllowedExtension env (strippedPath request) = (Threw e, []) ->
          outcome = Threw e).
Proof.
  intros Hm.
  unfold fetch, mbind, Async_bind, call, mret, Async_ret.
  pose proof (isAllowedPath_console env (strippedPath request)) as Hcon.
  pose proof (isAllowedExtension_silent env (strippedPath request)) as Hsil.
  assert (Hquiet : forall tr t, consoleOnly tr = true -> consoleOnly t = true ->
                                consoleOnly (tr ++ t) = true).
  { intros tr t H1 H2. rewrite consoleOnly_app, H1, H2. reflexivity. }
  destruct (isAllowedPath env (strippedPath request)) as [[[|]|e] tr];
    cbn [fst snd negb] in *;
    [ destruct (isAllowedExtension env (strippedPath request)) as [[[|]|e] t2];
      cbn [fst snd negb] in *; subst t2; rewrite ?Hm | | ];
    cbn -[String.append];
    (eexists _, _; split; [reflexivity|];
     split; [first [exact Hcon | apply Hquiet; [exact Hcon | reflexivity]]|]);
    (split; [|split; [|split; [|split]]]);
    intros;
    first [ congruence
          | eexists; split; [reflexivity|]; repeat split; vm_compute; reflexivity ].
Qed.

(** C3 (as the code has it): when a configured pattern is refused by the
    matcher compiler, [isAllowedPath] throws the compiler's SyntaxError, even
    when another pattern of the list would accept the path, and the handler
    ends by that exception for every request: it builds no response of its
    own, writes nothing to the console and touches neither the cache nor the
    upstream.  The pattern is never skipped. *)
Theorem malformed_pattern_throws (request : InboundRequest) (env : Env) (c : Cache)
    (s : string) :
  JS.truthy (ALLOWED_PATHS env) = true ->
  In s (JS.split "," (default EmptyString (ALLOWED_PATHS env))) ->
  regexp_new (JS.trim s) = None ->
  exists p,
    regexp_new p = None
    /\ (forall url, isAllowedPath env url = (Threw (SyntaxError p), []))
    /\ fetch upstream request env c = (Threw (SyntaxError p), c, []).
Proof.
  intros Htruthy Hin Hbad.
  destruct (compilePatterns_refused _ _ Hin Hbad) as (p & Hp & _ & Hpbad).
  assert (Hall : forall url, isAllowedPath env url = (Threw (SyntaxError p), [])).
  { intros url. unfold isAllowedPath. rewrite Htruthy.
    unfold mbind, Sync_bind. rewrite Hp. reflexivity. }
  exists p. split; [exact Hpbad|]. split; [exact Hall|].
  unfold fetch, mbind, Async_bind, call. rewrite Hall. reflexivity.
Qed.

(** C4 (as the code has it): without an extension allow-list
    [isAllowedExtension] allows nothing: it throws a TypeError on every path.
    A request that passed the path authorizer ends the handler by that
    exception, after the first log line and before any use of the cache or
    the upstream; the handler builds no response of its own. *)
Theorem missing_extension_list_throws (request : InboundRequest) (env : Env)
    (c : Cache) (tr : list Event) :
  ALLOWED_EXTENSIONS env = None ->
  isAllowedPath env (strippedPath request) = (Returned true, tr) ->
  exists message,
    (forall path, isAllowedExtension env path = (Threw (TypeError message), []))
    /\ fetch upstream request env c =
         (Threw (TypeError message), c,
          tr ++ [Console LogInfo ("Request for path: " +:+ strippedPath request)]).
Proof.
  intros Hnone Hpath.
  assert (Hall : forall path, isAllowedExtension env path =
            (Threw (TypeError "Cannot read properties of undefined (reading 'split')"), [])).
  { intros path. unfold isAllowedExtension. rewrite Hnone. reflexivity. }
  eexists. split; [exact Hall|].
  unfold fetch, mbind, Async_bind, call, mret, Async_ret.
  rewrite Hpath. cbn [fst snd negb]. rewrite Hall. reflexivity.
Qed.

(** X19: on a cache miss of a GET or HEAD, an upstream answer that is not
    [ok] and whose status accepts a text body comes back with the upstream
    status and is stored under the key of the path with
    [Cache-Control: public, max-age=300] and the CORS header.  Any later GET
    or HEAD for the same path that finds the entry is answered from it, with
    the same status, whatever the upstream would do: the upstream is not
    contacted. *)
Theorem negative_caching (request later : InboundRequest) (env : Env) (c : Cache)
    (tr : list Event) (response : Response)
    (upstream' : Request -> Completion Response) :
  isAllowedPath env (strippedPath request) = (Returned true, tr) ->
  isAllowedExtension env (strippedPath request) = (Returned true, []) ->
  in_method request = "GET" \/ in_method request = "HEAD" ->
  c !! targetUrl env (strippedPath request) = None ->
  JS.truthy (GITHUB_TOKEN env) = true ->
  upstream (newRequest env request (strippedPath request)) = Returned response ->
  ok response = false ->
  acceptsBody (status response) = true ->
  strippedPath later = strippedPath request ->
  in_method later = "GET" \/ in_method later = "HEAD" ->
  exists fail t1 t2,
    fetch upstream request env c =
      (Returned fail, <[targetUrl env (strippedPath request) := fail]> c, t1)
    /\ In (CachePut (cacheKey env (strippedPath request)) fail) t1
    /\ status fail = status response
    /\ headers_get "Cache-Control" (headers fail) = Some "public, max-age=300"
    /\ headers_get "Access-Control-Allow-Origin" (headers fail) = Some "*"
    /\ fetch upstream' later env (<[targetUrl env (strippedPath request) := fail]> c) =
         (Returned (shapedFor later fail),
          <[targetUrl env (strippedPath request) := fail]> c, t2)
    /\ status (shapedFor later fail) = status response
    /\ noFetch t2 = true.
Proof.
  intros Hpath Hext Hm Hc Htok Hup Hok Hacc Hsame Hm'.
  exists (failOf response). eexists _, _.
  split; [exact (fetch_upstream_not_ok upstream _ _ _ _ _ Hpath Hext Hm Hc Htok Hup
                   Hok Hacc)|].
  split.
  { apply in_or_app; right. apply in_or_app; right.
    apply in_or_app; right. simpl. auto. }
  split; [reflexivity|]. split; [vm_compute; reflexivity|].
  split; [vm_compute; reflexivity|].
  rewrite <- Hsame in Hpath, Hext |- *.
  split.
  { apply (fetch_cache_hit upstream' later env _ tr (failOf response) Hpath Hext Hm').
    apply lookup_insert_eq. }
  split.
  { unfold shapedFor. destruct (in_method later =? "HEAD")%string; reflexivity. }
  apply hit_trace_quiet. eapply isAllowedPath_trace; eassumption.
Qed.

(** C6: on a cache miss of a GET or HEAD, when the upstream call throws, the
    answer is the 500 internal error, the cache is left as it was and nothing
    is stored. *)
Theorem network_failure_not_cached (request : InboundRequest) (env : Env) (c : Cache)
    (tr : list Event) (error : Exn) :
  isAllowedPath env (strippedPath request) = (Returned true, tr) ->
  isAllowedExtension env (strippedPath request) = (Returned true, []) ->
  in_method request = "GET" \/ in_method request = "HEAD" ->
  c !! targetUrl env (strippedPath request) = None ->
  JS.truthy (GITHUB_TOKEN env) = true ->
  upstream (newRequest env request (strippedPath request)) = Threw error ->
  exists r t,
    fetch upstream request env c = (Returned r, c, t)
    /\ status r = 500
    /\ body r = Some "Internal server error"
    /\ noCachePut t = true.
Proof.
  intros Hpath Hext Hm Hc Htok Hup.
  eexists _, _.
  split; [exact (fetch_network_failure upstream _ _ _ _ _ Hpath Hext Hm Hc Htok Hup)|].
  split; [reflexivity|]. split; [reflexivity|].
  rewrite noCachePut_app.
  rewrite (consoleOnly_noCachePut _ (isAllowedPath_trace _ _ _ _ Hpath)).
  reflexivity.
Qed.

(** C7: without a credential (the token is not set, or is the empty string),
    a GET or HEAD that misses the cache is answered with status 500 and the
    upstream is not called. *)
Theorem missing_credential_500 (request : InboundRequest) (env : Env) (c : Cache)
    (tr : list Event) :
  isAllowedPath env (strippedPath request) = (Returned true, tr) ->
  isAllowedExtension env (strippedPath request) = (Returned true, []) ->
  in_method request = "GET" \/ in_method request = "HEAD" ->
  c !! targetUrl env (strippedPath request) = None ->
  JS.truthy (GITHUB_TOKEN env) = false ->
  exists r t,
    fetch upstream request env c = (Returned r, c, t)
    /\ status r = 500
    /\ noFetch t = true.
Proof.
  intros Hpath Hext Hm Hc Htok.
  eexists _, _.
  split; [exact (fetch_no_token upstream _ _ _ _ Hpath Hext Hm Hc Htok)|].
  split; [reflexivity|].
  rewrite noFetch_app.
  rewrite (consoleOnly_noFetch _ (isAllowedPath_trace _ _ _ _ Hpath)).
  reflexivity.
Qed.

(** C8: GET and HEAD for one path look up one cache key.  When a GET left an
    entry under that key (it found one, or stored what the upstream
    answered), the entry is the response the GET returned; a HEAD for the
    same path is then served from that entry without any upstream call, with
    the status and headers of the GET's response and no body, and a repeated
    GET returns that response again. *)
Theorem head_get_equivalence (getRequest headRequest : InboundRequest) (env : Env)
    (c c1 : Cache) (tr t1 : list Event) (r entry : Response)
    (upstream' : Request -> Completion Response) :
  isAllowedPath env (strippedPath getRequest) = (Returned true, tr) ->
  isAllowedExtension env (strippedPath getRequest) = (Returned true, []) ->
  in_method getRequest = "GET" ->
  in_method headRequest = "HEAD" ->
  strippedPath headRequest = strippedPath getRequest ->
  fetch upstream getRequest env c = (Returned r, c1, t1) ->
  c1 !! targetUrl env (strippedPath getRequest) = Some entry ->
  entry = r
  /\ exists t2 t3,
       fetch upstream' headRequest env c1 = (Returned (stripBody r), c1, t2)
       /\ In (CacheMatch (cacheKey env (strippedPath getRequest))) t1
       /\ In (CacheMatch (cacheKey env (strippedPath getRequest))) t2
       /\ noFetch t2 = true
       /\ status (stripBody r) = status r
       /\ headers (stripBody r) = headers r
       /\ body (stripBody r) = None
       /\ fetch upstream' getRequest env c1 = (Returned r, c1, t3).
Proof.
  intros Hpath Hext Hget Hhead Hsame Hrun Hentry.
  assert (Hpath' := Hpath). assert (Hext' := Hext).
  rewrite <- Hsame in Hpath', Hext'.
  assert (Hkey : forall t, In (CacheMatch (cacheKey env (strippedPath getRequest)))
            (tr ++ validationLog (strippedPath getRequest)
                ++ CacheMatch (cacheKey env (strippedPath getRequest)) :: t)).
  { intros t. apply in_or_app; right. apply in_or_app; right. left; reflexivity. }
  assert (Hserved : entry = r /\
            In (CacheMatch (cacheKey env (strippedPath getRequest))) t1).
  { destruct (c !! targetUrl env (strippedPath getRequest)) as [cached|] eqn:Hc.
    - rewrite (fetch_cache_hit upstream _ _ _ _ _ Hpath Hext (or_introl Hget) Hc) in Hrun.
      unfold shapedFor in Hrun. rewrite Hget in Hrun. simpl in Hrun.
      injection Hrun as <- <- <-. split; [congruence | apply Hkey].
    - destruct (JS.truthy (GITHUB_TOKEN env)) eqn:Htok.
      + destruct (upstream (newRequest env getRequest (strippedPath getRequest)))
          as [response|error] eqn:Hup.
        * destruct (ok response) eqn:Hok.
          -- rewrite (fetch_upstream_ok upstream _ _ _ _ _ Hpath Hext
                        (or_introl Hget) Hc Htok Hup Hok) in Hrun.
             unfold shapedFor in Hrun. rewrite Hget in Hrun. simpl in Hrun.
             injection Hrun as <- <- <-.
             rewrite lookup_insert_eq in Hentry. split; [congruence | apply Hkey].
          -- destruct (acceptsBody (status response)) eqn:Hacc.
             ++ rewrite (fetch_upstream_not_ok upstream _ _ _ _ _ Hpath Hext
                           (or_introl Hget) Hc Htok Hup Hok Hacc) in Hrun.
                injection Hrun as <- <- <-.
                rewrite lookup_insert_eq in Hentry. split; [congruence | apply Hkey].
             ++ rewrite (fetch_upstream_body_refused upstream _ _ _ _ _ Hpath Hext
                           (or_introl Hget) Hc Htok Hup Hok Hacc) in Hrun.
                injection Hrun as _ <- _. congruence.
        * rewrite (fetch_network_failure upstream _ _ _ _ _ Hpath Hext
                     (or_introl Hget) Hc Htok Hup) in Hrun.
          injection Hrun as _ <- _. congruence.
      + rewrite (fetch_no_token upstream _ _ _ _ Hpath Hext (or_introl Hget) Hc Htok)
          in Hrun.
        injection Hrun as _ <- _. congruence. }
  destruct Hserved as [-> Ht1]. split; [reflexivity|].
  eexists _, _.
  split.
  { rewrite <- Hsame in Hentry.
    rewrite (fetch_cache_hit upstream' _ _ _ _ _ Hpath' Hext' (or_intror Hhead) Hentry).
    unfold shapedFor. rewrite Hhead. simpl. rewrite Hsame. reflexivity. }
  split; [exact Ht1|].
  split; [apply (Hkey [])|].
  split; [apply hit_trace_quiet; eapply isAllowedPath_trace; eassumption|].
  split; [reflexivity|]. split; [reflexivity|]. split; [reflexivity|].
  rewrite (fetch_cache_hit upstream' _ _ _ _ _ Hpath Hext (or_introl Hget) Hentry).
  unfold shapedFor. rewrite Hget. reflexivity.
Qed.

(** C9: a path allow-list that is configured but has no entry to compile
    allows every path.  The configured text is then the empty string, which
    the guard of [isAllowedPath] takes like a missing list; a non-empty text
    always splits into at least one entry. *)
Theorem isAllowedPath_empty_list (env : Env) (url allowed : string) :
  ALLOWED_PATHS env = Some allowed ->
  allowed = EmptyString \/ JS.split "," allowed = [] ->
  isAllowedPath env url = (Returned true, []).
Proof.
  intros Hcfg [->|Hnil].
  - unfold isAllowedPath. rewrite Hcfg. reflexivity.
  - destruct (split_not_nil _ _ Hnil).
Qed.

(** C10: an empty entry in the extension allow-list, such as the one a
    trailing comma leaves, makes [isAllowedExtension] return true for every
    path: every string ends with the empty string. *)
Theorem isAllowedExtension_empty_entry (env : Env) (path extensions : string) :
  ALLOWED_EXTENSIONS env = Some extensions ->
  In EmptyString (JS.split "," extensions) ->
  isAllowedExtension env path = (Returned true, []).
Proof.
  intros Hcfg Hin. unfold isAllowedExtension. rewrite Hcfg.
  unfold mret, Sync_ret. do 2 f_equal.
  apply existsb_exists. exists EmptyString. split; [exact Hin|].
  apply endsWith_empty.
Qed.

End Properties.

(** ** Concrete runs *)

(** C1: a HEAD request that misses the cache while the upstream answers 503
    is answered with the failure text as its body: this branch returns the
    response it built without the [stripBody] that the hit and the
    successful fetch apply. *)
Theorem head_upstream_failure_sends_body :
  exists c t,
    fetch Sample.unavailable (Sample.head "/a/b.jar") Sample.env ∅
      = (Returned (failOf Sample.down), c, t)
    /\ status (failOf Sample.down) = 503
    /\ body (failOf Sample.down)
         = Some "Failed to fetch from GitHub Packages: Service Unavailable".
Proof.
  eexists _, _. split; [|split]; reflexivity.
Qed.

(** C5: a GET that misses the cache while the upstream answers 304, a status
    that is not [ok], is answered with the 500 internal error after one
    upstream call, and nothing is stored: the cache is still empty, so the
    next request for the path calls the upstream again.  The failure response
    cannot be built with this status, and the [catch] answers instead. *)
Theorem upstream_304_answered_500_uncached :
  ok Sample.notModified = false
  /\ exists t,
       fetch Sample.revalidating (Sample.get "/a/b.jar") Sample.env ∅
         = (Returned internalError, ∅, t)
       /\ status internalError = 500
       /\ fetchCount t = 1%nat
       /\ noCachePut t = true.
Proof.
  split; [reflexivity|]. eexists. split; [reflexivity|].
  split; [reflexivity|]. split; reflexivity.
Qed.

(** An OPTIONS request for a path with a refused extension gets the 404 of
    the extension check, without the allow-methods header. *)
Lemma options_bad_extension_not_preflight :
  fetch Sample.serving (Sample.options "/a/b.txt") Sample.env ∅
    = (Returned badExtension, ∅, [Console LogInfo "Request for path: a/b.txt"])
  /\ ~ (exists r c t,
          fetch Sample.serving (Sample.options "/a/b.txt") Sample.env ∅
            = (Returned r, c, t)
          /\ headers_get "Access-Control-Allow-Methods" (headers r)
               = Some "GET, OPTIONS").
Proof.
  assert (H : fetch Sample.serving (Sample.options "/a/b.txt") Sample.env ∅
              = (Returned badExtension, ∅, [Console LogInfo "Request for path: a/b.txt"]))
    by reflexivity.
  split; [exact H|].
  intros (r & c & t & Hrun & Hh). rewrite H in Hrun.
  injection Hrun as <- _ _. vm_compute in Hh. discriminate Hh.
Qed.

(** With an unterminated group among the patterns, a request for a path
    that the first pattern accepts ends in the SyntaxError: there is no
    response, so no 500, and no console line. *)
Lemma malformed_pattern_no_500 :
  fetch Sample.serving (Sample.get "/com/acme/a.jar") Sample.brokenPattern ∅
    = (Threw (SyntaxError "("), ∅, [])
  /\ ~ (exists r c t,
          fetch Sample.serving (Sample.get "/com/acme/a.jar") Sample.brokenPattern ∅
            = (Returned r, c, t)
          /\ status r = 500).
Proof.
  assert (H : fetch Sample.serving (Sample.get "/com/acme/a.jar") Sample.brokenPattern ∅
              = (Threw (SyntaxError "("), ∅, [])) by reflexivity.
  split; [exact H|].
  intros (r & c & t & Hrun & _). rewrite H in Hrun. discriminate Hrun.
Qed.

(** Without an extension allow-list a request ends in the TypeError:
    there is no response, so no 500. *)
Lemma missing_extension_list_no_500 :
  fetch Sample.serving (Sample.get "/a/b.jar") Sample.noExtensions ∅
    = (Threw (TypeError "Cannot read properties of undefined (reading 'split')"), ∅,
       [Console LogInfo "Request for path: a/b.jar"])
  /\ ~ (exists r c t,
          fetch Sample.serving (Sample.get "/a/b.jar") Sample.noExtensions ∅
            = (Returned r, c, t)
          /\ status r = 500).
Proof.
  assert (H : fetch Sample.serving (Sample.get "/a/b.jar") Sample.noExtensions ∅
              = (Threw (TypeError "Cannot read properties of undefined (reading 'split')"),
                 ∅, [Console LogInfo "Request for path: a/b.jar"])) by reflexivity.
  split; [exact H|].
  intros (r & c & t & Hrun & _). rewrite H in Hrun. discriminate Hrun.
Qed.

(** A preflight for an allowed path, with an upstream that cannot be
    reached. *)
Lemma options_no_io_and_preflight_witness :
  exists r t,
    fetch Sample.unreachable (Sample.options "/a/b.jar") Sample.env ∅ = (Returned r, ∅, t)
    /\ consoleOnly t = true /\ status r = 200 /\ body r = None
    /\ size (headers r) = 3%nat.
Proof.
  destruct (options_no_io_and_preflight (engine := Literal.engine) Sample.unreachable
              (Sample.options "/a/b.jar") Sample.env ∅ eq_refl)
    as (outcome & t & Hrun & Hquiet & Hpre & _).
  destruct (Hpre [] eq_refl eq_refl) as (r & Hr & Hs & Hb & _ & _ & _ & Hn).
  exists r, t. rewrite Hrun, Hr. auto.
Defined.

Lemma malformed_pattern_throws_witness :
  exists p,
    fetch Sample.serving (Sample.get "/com/acme/a.jar") Sample.brokenPattern ∅
      = (Threw (SyntaxError p), ∅, []).
Proof.
  destruct (malformed_pattern_throws (engine := Literal.engine) Sample.serving (Sample.get "/com/acme/a.jar")
              Sample.brokenPattern ∅ "(" eq_refl (or_intror (or_introl eq_refl)) eq_refl)
    as (p & _ & _ & Hrun).
  exists p. exact Hrun.
Defined.

Lemma missing_extension_list_throws_witness :
  exists message,
    fetch Sample.serving (Sample.get "/a/b.jar") Sample.noExtensions ∅
      = (Threw (TypeError message), ∅, [Console LogInfo "Request for path: a/b.jar"]).
Proof.
  destruct (missing_extension_list_throws (engine := Literal.engine) Sample.serving (Sample.get "/a/b.jar")
              Sample.noExtensions ∅ [] eq_refl eq_refl)
    as (message & _ & Hrun).
  exists message. exact Hrun.
Defined.

(** A GET while the upstream answers 503, then a HEAD for the same path
    while the upstream cannot be reached. *)
Lemma negative_caching_witness :
  exists fail c1 t1 t2,
    fetch Sample.unavailable (Sample.get "/a/b.jar") Sample.env ∅ = (Returned fail, c1, t1)
    /\ status fail = 503
    /\ headers_get "Cache-Control" (headers fail) = Some "public, max-age=300"
    /\ fetch Sample.unreachable (Sample.head "/a/b.jar") Sample.env c1
         = (Returned (stripBody fail), c1, t2)
    /\ noFetch t2 = true.
Proof.
  destruct (negative_caching (engine := Literal.engine) Sample.unavailable (Sample.get "/a/b.jar")
              (Sample.head "/a/b.jar") Sample.env ∅ [] Sample.down Sample.unreachable
              eq_refl eq_refl (or_introl eq_refl) (lookup_empty _) eq_refl eq_refl eq_refl
              eq_refl eq_refl (or_intror eq_refl))
    as (fail & t1 & t2 & Hrun & _ & Hs & Hcc & _ & Hlater & _ & Hquiet).
  exists fail. eexists. exists t1, t2.
  split; [exact Hrun|]. split; [exact Hs|]. split; [exact Hcc|].
  split; [exact Hlater | exact Hquiet].
Defined.

Lemma network_failure_not_cached_witness :
  exists r t,
    fetch Sample.unreachable (Sample.get "/a/b.jar") Sample.env ∅ = (Returned r, ∅, t)
    /\ status r = 500
    /\ body r = Some "Internal server error"
    /\ noCachePut t = true.
Proof.
  apply (network_failure_not_cached (engine := Literal.engine) Sample.unreachable (Sample.get "/a/b.jar")
           Sample.env ∅ [] (TypeError "fetch failed")
           eq_refl eq_refl (or_introl eq_refl) (lookup_empty _) eq_refl eq_refl).
Defined.

Lemma missing_credential_500_witness :
  exists r t,
    fetch Sample.serving (Sample.head "/a/b.jar") Sample.noToken ∅ = (Returned r, ∅, t)
    /\ status r = 500
    /\ noFetch t = true.
Proof.
  apply (missing_credential_500 (engine := Literal.engine) Sample.serving (Sample.head "/a/b.jar")
           Sample.noToken ∅ [] eq_refl eq_refl (or_intror eq_refl) (lookup_empty _) eq_refl).
Defined.

(** A GET that fetches and stores the artifact, then a HEAD for the same
    path while the upstream cannot be reached. *)
Lemma head_get_equivalence_witness :
  exists c1 t1 t2,
    fetch Sample.serving (Sample.get "/a/b.jar") Sample.env ∅
      = (Returned (cacheResponseOf Sample.artifact), c1, t1)
    /\ fetch Sample.unreachable (Sample.head "/a/b.jar") Sample.env c1
         = (Returned (stripBody (cacheResponseOf Sample.artifact)), c1, t2)
    /\ noFetch t2 = true
    /\ body (stripBody (cacheResponseOf Sample.artifact)) = None.
Proof.
  pose proof (fetch_upstream_ok (engine := Literal.engine) Sample.serving
                (Sample.get "/a/b.jar") Sample.env ∅ [] Sample.artifact
                eq_refl eq_refl (or_introl eq_refl) (lookup_empty _)
                eq_refl eq_refl eq_refl) as Hrun.
  destruct (head_get_equivalence (engine := Literal.engine) Sample.serving
              (Sample.get "/a/b.jar") (Sample.head "/a/b.jar") Sample.env ∅ _ [] _
              (cacheResponseOf Sample.artifact) (cacheResponseOf Sample.artifact)
              Sample.unreachable
              eq_refl eq_refl eq_refl eq_refl eq_refl Hrun (lookup_insert_eq _ _ _))
    as (_ & t2 & t3 & Hhead & _ & _ & Hquiet & _ & _ & Hbody & _).
  eexists _, _. exists t2.
  split; [exact Hrun|]. split; [exact Hhead|]. split; [exact Hquiet | exact Hbody].
Defined.

Lemma isAllowedPath_empty_list_witness :
  isAllowedPath Sample.emptyAllowList "org/else/private.jar" = (Returned true, []).
Proof.
  apply (isAllowedPath_empty_list (engine := Literal.engine) Sample.emptyAllowList "org/else/private.jar"
           EmptyString eq_refl (or_introl eq_refl)).
Defined.

Lemma isAllowedExtension_empty_entry_witness :
  isAllowedExtension Sample.trailingComma "bin/tool.exe" = (Returned true, []).
Proof.
  apply (isAllowedExtension_empty_entry Sample.trailingComma "bin/tool.exe" ".jar,"
           eq_refl (or_intror (or_introl eq_refl))).
Defined.


(** ** More on the strings *)

Lemma length_append (p s : string) :
  String.length (p +:+ s) = (String.length p + String.length s)%nat.
Proof. induction p as [|c p IH]; simpl; [reflexivity | now rewrite IH]. Qed.

Lemma substring_whole (s : string) : substring 0 (String.length s) s = s.
Proof. induction s as [|c s IH]; simpl; [reflexivity | now rewrite IH]. Qed.

Lemma substring_after (p s : string) (k : nat) :
  substring (String.length p) k (p +:+ s) = substring 0 k s.
Proof. induction p as [|c p IH]; simpl; [reflexivity | exact IH]. Qed.

Lemma substring_cut (s : string) (m : nat) :
  (m <= String.length s)%nat ->
  s = substring 0 m s +:+ substring m (String.length s - m) s.
Proof.
  revert m. induction s as [|c s IH]; intros [|m] Hm; simpl in *; try lia.
  - reflexivity.
  - now rewrite substring_whole.
  - change (String c s
            = String c (substring 0 m s +:+ substring m (String.length s - m) s)).
    f_equal. apply IH. lia.
Qed.

(** [endsWith] says that the text is some prefix followed by the suffix. *)
Lemma endsWith_iff (s suffix : string) :
  JS.endsWith s suffix = true <-> exists p, s = p +:+ suffix.
Proof.
  unfold JS.endsWith. split.
  - destruct (Nat.leb_spec (String.length suffix) (String.length s)) as [Hle|Hlt];
      [|discriminate].
    intros Heq. apply String.eqb_eq in Heq.
    exists (substring 0 (String.length s - String.length suffix) s).
    assert (Hcut := substring_cut s (String.length s - String.length suffix)
                      (Nat.le_sub_l _ _)).
    replace (String.length s - (String.length s - String.length suffix))%nat
      with (String.length suffix) in Hcut by lia.
    rewrite Heq in Hcut. exact Hcut.
  - intros [p ->]. rewrite length_append.
    destruct (Nat.leb_spec (String.length suffix) (String.length p + String.length suffix))
      as [Hle|Hlt]; [|lia].
    replace (String.length p + String.length suffix - String.length suffix)%nat
      with (String.length p) by lia.
    rewrite substring_after, substring_whole. apply String.eqb_refl.
Qed.

(** ** More on the authorizers *)

Section AuthorizerProperties.

Context {engine : RegExpEngine}.

Lemma anyMatch_iff (pkgs : list RegExp) (url : string) :
  anyMatch pkgs url = true <-> exists pkg, In pkg pkgs /\ regexp_test pkg url = true.
Proof.
  induction pkgs as [|pkg rest IH]; simpl.
  - split; [discriminate | intros (? & [] & _)].
  - destruct (regexp_test pkg url) eqn:Ht.
    + split; [eauto | reflexivity].
    + rewrite IH. split.
      * intros (q & Hin & Hq). eauto.
      * intros (q & [->|Hin] & Hq); [congruence | eauto].
Qed.

(** The matchers are the compiled entries, one for one. *)
Lemma compilePatterns_entries (split : list string) (pkgs : list RegExp)
    (t : list Event) :
  compilePatterns split = (Returned pkgs, t) ->
  Forall2 (fun s pkg => regexp_new (JS.trim s) = Some pkg) split pkgs.
Proof.
  revert pkgs t. induction split as [|s rest IH]; simpl; intros pkgs t H.
  - injection H as <- _. constructor.
  - destruct (regexp_new (JS.trim s)) as [pkg|] eqn:Es; [|discriminate].
    unfold mbind, Sync_bind in H.
    destruct (compilePatterns rest) as [[pkgs'|e] t'] eqn:E; simpl in H; [|discriminate].
    injection H as <- _. constructor; [exact Es | eapply IH; reflexivity].
Qed.

Lemma compilePatterns_all (split : list string) :
  (forall s, In s split -> regexp_new (JS.trim s) <> None) ->
  exists pkgs, compilePatterns split = (Returned pkgs, []).
Proof.
  induction split as [|s rest IH]; simpl; intros Hall.
  - exists []. reflexivity.
  - destruct (regexp_new (JS.trim s)) as [pkg|] eqn:Es.
    + destruct IH as (pkgs & Hp); [intros; apply Hall; auto|].
      exists (pkg :: pkgs). unfold mbind, Sync_bind. rewrite Hp. reflexivity.
    + destruct (Hall s); auto.
Qed.

Lemma Forall2_matchers (split : list string) (pkgs : list RegExp) (url : string) :
  Forall2 (fun s pkg => regexp_new (JS.trim s) = Some pkg) split pkgs ->
  (exists pkg, In pkg pkgs /\ regexp_test pkg url = true)
  <-> (exists s pkg, In s split /\ regexp_new (JS.trim s) = Some pkg
                     /\ regexp_test pkg url = true).
Proof.
  induction 1 as [|s pkg rest pkgs Hs Hrest IH]; simpl.
  - split; [intros (? & [] & _) | intros (? & ? & [] & _)].
  - split.
    + intros (q & [<-|Hin] & Hq); [eauto 6|].
      destruct (proj1 IH (ex_intro _ q (conj Hin Hq))) as (s' & q' & Hin' & Hc & Hq').
      eauto 7.
    + intros (s' & q & [<-|Hin] & Hc & Hq).
      * exists pkg. split; [auto | congruence].
      * destruct (proj2 IH) as (q' & Hin' & Hq'); eauto 7.
Qed.

(** X1: with an allow-list whose entries all compile, a path is allowed
    exactly when one of the trimmed entries, as a pattern, accepts it. *)
Theorem isAllowedPath_iff_some_pattern (env : Env) (url : string) :
  JS.truthy (ALLOWED_PATHS env) = true ->
  (forall s, In s (JS.split "," (default EmptyString (ALLOWED_PATHS env))) ->
             regexp_new (JS.trim s) <> None) ->
  exists b t,
    isAllowedPath env url = (Returned b, t)
    /\ (b = true <->
        exists s pkg,
          In s (JS.split "," (default EmptyString (ALLOWED_PATHS env)))
          /\ regexp_new (JS.trim s) = Some pkg
          /\ regexp_test pkg url = true).
Proof.
  intros Htruthy Hall.
  destruct (compilePatterns_all _ Hall) as (pkgs & Hp).
  pose proof (compilePatterns_entries _ _ _ Hp) as Hentries.
  pose proof (allowedPackages_not_empty _ _ _ Hp) as Hlen.
  unfold isAllowedPath. rewrite Htruthy. unfold mbind, Sync_bind.
  rewrite Hp. cbn [fst snd]. rewrite Hlen.
  assert (Hiff := anyMatch_iff pkgs url).
  rewrite (Forall2_matchers _ _ url Hentries) in Hiff.
  revert Hiff. destruct (anyMatch pkgs url); simpl; intros Hiff.
  - eexists _, _. split; [reflexivity | exact Hiff].
  - eexists _, _. split; [reflexivity | exact Hiff].
Qed.

(** X2: [isAllowedPath] is silent when it allows, and when it refuses it
    warns once, naming the path and the configured list; it only refuses
    under a configured, non-empty allow-list. *)
Theorem isAllowedPath_logs_denial (env : Env) (url : string) (b : bool)
    (t : list Event) :
  isAllowedPath env url = (Returned b, t) ->
  (b = true /\ t = [])
  \/ (b = false /\ t = denialLog env url /\ JS.truthy (ALLOWED_PATHS env) = true).
Proof.
  unfold isAllowedPath.
  destruct (JS.truthy (ALLOWED_PATHS env)) eqn:Htruthy.
  - unfold mbind, Sync_bind.
    pose proof (compilePatterns_silent
                  (JS.split "," (default EmptyString (ALLOWED_PATHS env)))) as Hs.
    destruct (compilePatterns _) as [[pkgs|e] t0]; simpl in *; subst; [|discriminate].
    destruct (length pkgs =? 0)%nat.
    + intros H. injection H as <- <-. auto.
    + destruct (anyMatch pkgs url); simpl; intros H; injection H as <- <-; auto.
  - intros H. injection H as <- <-. auto.
Qed.

(** X3: with an extension list, a path is allowed exactly when it ends with
    one of the entries, taken as they stand between the commas; nothing is
    logged. *)
Theorem isAllowedExtension_iff_suffix (env : Env) (path extensions : string) :
  ALLOWED_EXTENSIONS env = Some extensions ->
  exists b,
    isAllowedExtension env path = (Returned b, [])
    /\ (b = true <->
        exists ext p, In ext (JS.split "," extensions) /\ path = p +:+ ext).
Proof.
  intros Hcfg. unfold isAllowedExtension. rewrite Hcfg.
  eexists. split; [reflexivity|].
  rewrite existsb_exists. split.
  - intros (ext & Hin & Hends). apply endsWith_iff in Hends as [p ->]. eauto.
  - intros (ext & p & Hin & ->). exists ext. split; [exact Hin|].
    apply endsWith_iff. eauto.
Qed.

End AuthorizerProperties.

(** ** More on traces *)

Lemma consoleOnly_no_fetch_in (t : list Event) (req : Request) :
  consoleOnly t = true -> ~ In (Fetch req) t.
Proof.
  unfold consoleOnly. rewrite forallb_forall. intros H Hin.
  specialize (H _ Hin). discriminate H.
Qed.

Lemma consoleOnly_no_put_in (t : list Event) (k : Request) (r : Response) :
  consoleOnly t = true -> ~ In (CachePut k r) t.
Proof.
  unfold consoleOnly. rewrite forallb_forall. intros H Hin.
  specialize (H _ Hin). discriminate H.
Qed.

Lemma fetchCount_after_console (tr t : list Event) :
  consoleOnly tr = true -> fetchCount (tr ++ t) = fetchCount t.
Proof.
  unfold fetchCount, consoleOnly. intros H.
  induction tr as [|[] tr IH]; simpl in *; auto; discriminate.
Qed.

Lemma putCount_after_console (tr t : list Event) :
  consoleOnly tr = true -> putCount (tr ++ t) = putCount t.
Proof.
  unfold putCount, consoleOnly. intros H.
  induction tr as [|[] tr IH]; simpl in *; auto; discriminate.
Qed.

Lemma ttl_text : "public, max-age=" +:+ pretty cacheTtl = "public, max-age=300".
Proof. reflexivity. Qed.

(** What the worker builds to store is annotated. *)
Lemma failOf_annotated (response : Response) : annotated (failOf response).
Proof. split; reflexivity. Qed.

Lemma cacheResponseOf_annotated (response : Response) :
  annotated (cacheResponseOf response).
Proof.
  unfold annotated, cacheResponseOf, headers_get, headers_set. simpl headers.
  rewrite ttl_text.
  change (JS.toLowerCase "Cache-Control") with "cache-control".
  change (JS.toLowerCase "Access-Control-Allow-Origin") with "access-control-allow-origin".
  split.
  - rewrite lookup_insert_ne by discriminate. apply lookup_insert_eq.
  - apply lookup_insert_eq.
Qed.

Lemma cacheResponseOf_headers (response : Response) :
  headers (cacheResponseOf response)
  = <["access-control-allow-origin" := "*"]>
      (<["cache-control" := "public, max-age=300"]> (headers response)).
Proof. reflexivity. Qed.

Lemma newRequest_headers (env : Env) (request : InboundRequest) (path : string) :
  req_headers (newRequest env request path)
  = <["access-control-allow-origin" := "*"]>
      (<["user-agent" := "Cloudflare-Worker-Maven-Proxy"]>
         (<["accept" := acceptOf request]>
            (<["authorization" := "Bearer " +:+ JS.interpolate (GITHUB_TOKEN env)]> ∅))).
Proof. reflexivity. Qed.

Lemma truthy_inv (v : option string) :
  JS.truthy v = true -> exists s, v = Some s /\ s <> EmptyString.
Proof.
  destruct v as [[|a s]|]; simpl; try discriminate.
  intros _. exists (String a s). split; [reflexivity | discriminate].
Qed.

(** ** The handler, case by case *)

Section Cases.

Context {engine : RegExpEngine}.
Variable upstream : Request -> Completion Response.

Ltac enter Hpath :=
  unfold fetch, mbind, Async_bind, call, mret, Async_ret, cache_match;
  rewrite Hpath; cbn [fst snd negb].

Lemma fetch_path_threw (request : InboundRequest) (env : Env) (c : Cache)
    (e : Exn) (tr : list Event) :
  isAllowedPath env (strippedPath request) = (Threw e, tr) ->
  fetch upstream request env c = (Threw e, c, tr).
Proof. intros Hpath. enter Hpath. reflexivity. Qed.

Lemma fetch_path_refused (request : InboundRequest) (env : Env) (c : Cache)
    (tr : list Event) :
  isAllowedPath env (strippedPath request) = (Returned false, tr) ->
  fetch upstream request env c = (Returned badPath, c, tr ++ []).
Proof. intros Hpath. enter Hpath. reflexivity. Qed.

Lemma fetch_extension_threw (request : InboundRequest) (env : Env) (c : Cache)
    (e : Exn) (tr : list Event) :
  isAllowedPath env (strippedPath request) = (Returned true, tr) ->
  isAllowedExtension env (strippedPath request) = (Threw e, []) ->
  fetch upstream request env c =
    (Threw e, c, tr ++ [Console LogInfo ("Request for path: " +:+ strippedPath request)]).
Proof. intros Hpath Hext. enter Hpath. rewrite Hext. reflexivity. Qed.

Lemma fetch_extension_refused (request : InboundRequest) (env : Env) (c : Cache)
    (tr : list Event) :
  isAllowedPath env (strippedPath request) = (Returned true, tr) ->
  isAllowedExtension env (strippedPath request) = (Returned false, []) ->
  fetch upstream request env c =
    (Returned badExtension, c,
     tr ++ [Console LogInfo ("Request for path: " +:+ strippedPath request)]).
Proof. intros Hpath Hext. enter Hpath. rewrite Hext. reflexivity. Qed.

Lemma fetch_options (request : InboundRequest) (env : Env) (c : Cache)
    (tr : list Event) :
  isAllowedPath env (strippedPath request) = (Returned true, tr) ->
  isAllowedExtension env (strippedPath request) = (Returned true, []) ->
  in_method request = "OPTIONS" ->
  fetch upstream request env c =
    (Returned preflight, c, tr ++ validationLog (strippedPath request)).
Proof.
  intros Hpath Hext Hm. enter Hpath. rewrite Hext. cbn [fst snd negb].
  rewrite Hm. reflexivity.
Qed.

Lemma fetch_other_method (request : InboundRequest) (env : Env) (c : Cache)
    (tr : list Event) :
  isAllowedPath env (strippedPath request) = (Returned true, tr) ->
  isAllowedExtension env (strippedPath request) = (Returned true, []) ->
  in_method request <> "OPTIONS" ->
  in_method request <> "GET" ->
  in_method request <> "HEAD" ->
  fetch upstream request env c =
    (Returned methodNotAllowed, c, tr ++ validationLog (strippedPath request)).
Proof.
  intros Hpath Hext Ho Hg Hh. enter Hpath. rewrite Hext. cbn [fst snd negb].
  apply String.eqb_neq in Ho, Hg, Hh. rewrite Ho, Hg, Hh. reflexivity.
Qed.

(** A request either ends before the cache is looked at, with console
    output only, or it is a validated GET or HEAD. *)
Lemma fetch_cases (request : InboundRequest) (env : Env) (c : Cache) :
  (exists outcome t,
     fetch upstream request env c = (outcome, c, t)
     /\ consoleOnly t = true
     /\ ((exists e tr, outcome = Threw e
            /\ isAllowedPath env (strippedPath request) = (Threw e, tr))
         \/ (exists e, outcome = Threw e
               /\ isAllowedExtension env (strippedPath request) = (Threw e, []))
         \/ outcome = Returned badPath
         \/ outcome = Returned badExtension
         \/ outcome = Returned preflight
         \/ outcome = Returned methodNotAllowed))
  \/ (exists tr,
        isAllowedPath env (strippedPath request) = (Returned true, tr)
        /\ isAllowedExtension env (strippedPath request) = (Returned true, [])
        /\ (in_method request = "GET" \/ in_method request = "HEAD")).
Proof.
  pose proof (isAllowedPath_console env (strippedPath request)) as Hcon.
  pose proof (isAllowedExtension_silent env (strippedPath request)) as Hsil.
  destruct (isAllowedPath env (strippedPath request)) as [[[|]|e] tr] eqn:Hpath;
    simpl in Hcon.
  - destruct (isAllowedExtension env (strippedPath request)) as [[[|]|e] t0] eqn:Hext;
      simpl in Hsil; subst t0.
    + destruct (String.eqb_spec (in_method request) "OPTIONS") as [Ho|Ho].
      { left. eexists _, _. split; [exact (fetch_options _ _ _ _ Hpath Hext Ho)|].
        split; [rewrite consoleOnly_app, Hcon; reflexivity | tauto]. }
      destruct (String.eqb_spec (in_method request) "GET") as [Hg|Hg];
        [right; eauto|].
      destruct (String.eqb_spec (in_method request) "HEAD") as [Hh|Hh];
        [right; eauto|].
      left. eexists _, _.
      split; [exact (fetch_other_method _ _ _ _ Hpath Hext Ho Hg Hh)|].
      split; [rewrite consoleOnly_app, Hcon; reflexivity | tauto].
    + left. eexists _, _. split; [exact (fetch_extension_refused _ _ _ _ Hpath Hext)|].
      split; [rewrite consoleOnly_app, Hcon; reflexivity | tauto].
    + left. eexists _, _. split; [exact (fetch_extension_threw _ _ _ _ _ Hpath Hext)|].
      split; [rewrite consoleOnly_app, Hcon; reflexivity | eauto 6].
  - left. eexists _, _. split; [exact (fetch_path_refused _ _ _ _ Hpath)|].
    split; [rewrite consoleOnly_app, Hcon; reflexivity | tauto].
  - left. eexists _, _. split; [exact (fetch_path_threw _ _ _ _ _ Hpath)|].
    split; [exact Hcon | eauto 6].
Qed.

(** A validated GET or HEAD ends in one of six ways. *)
Lemma proxied_cases (request : InboundRequest) (env : Env) (c : Cache)
    (tr : list Event) :
  isAllowedPath env (strippedPath request) = (Returned true, tr) ->
  isAllowedExtension env (strippedPath request) = (Returned true, []) ->
  in_method request = "GET" \/ in_method request = "HEAD" ->
  (exists cached,
     c !! targetUrl env (strippedPath request) = Some cached
     /\ fetch upstream request env c =
          (Returned (shapedFor request cached), c,
           tr ++ validationLog (strippedPath request)
              ++ [CacheMatch (cacheKey env (strippedPath request))]))
  \/ (c !! targetUrl env (strippedPath request) = None
      /\ ((JS.truthy (GITHUB_TOKEN env) = false
           /\ fetch upstream request env c =
                (Returned internalError, c,
                 tr ++ validationLog (strippedPath request)
                    ++ missLog env (strippedPath request)
                    ++ [Console LogError "GitHub token is not set"]))
          \/ (JS.truthy (GITHUB_TOKEN env) = true
              /\ ((exists error,
                     upstream (newRequest env request (strippedPath request)) = Threw error
                     /\ fetch upstream request env c =
                          (Returned internalError, c,
                           tr ++ validationLog (strippedPath request)
                              ++ missLog env (strippedPath request)
                              ++ [Fetch (newRequest env request (strippedPath request));
                                  Console LogError "Internal server error"]))
                  \/ (exists response,
                        upstream (newRequest env request (strippedPath request))
                          = Returned response
                        /\ ((ok response = false
                             /\ ((acceptsBody (status response) = true
                                  /\ fetch upstream request env c =
                                       (Returned (failOf response),
                                        <[targetUrl env (strippedPath request)
                                            := failOf response]> c,
                                        tr ++ validationLog (strippedPath request)
                                           ++ missLog env (strippedPath request)
                                           ++ [Fetch (newRequest env request
                                                        (strippedPath request));
                                               Console LogInfo
                                                 ("Response status from GitHub Packages: "
                                                    +:+ pretty (status response));
                                               Console LogWarn
                                                 "Failed to fetch from GitHub Packages";
                                               CachePut (cacheKey env (strippedPath request))
                                                 (failOf response)]))
                                 \/ (acceptsBody (status response) = false
                                     /\ fetch upstream request env c =
                                          (Returned internalError, c,
                                           tr ++ validationLog (strippedPath request)
                                              ++ missLog env (strippedPath request)
                                              ++ [Fetch (newRequest env request
                                                           (strippedPath request));
                                                  Console LogInfo
                                                    ("Response status from GitHub Packages: "
                                                       +:+ pretty (status response));
                                                  Console LogWarn
                                                    "Failed to fetch from GitHub Packages";
                                                  Console LogError
                                                    "Internal server error"]))))
                            \/ (ok response = true
                                /\ fetch upstream request env c =
                                     (Returned (shapedFor request (cacheResponseOf response)),
                                      <[targetUrl env (strippedPath request)
                                          := cacheResponseOf response]> c,
                                      tr ++ validationLog (strippedPath request)
                                         ++ missLog env (strippedPath request)
                                         ++ [Fetch (newRequest env request (strippedPath request));
                                             Console LogInfo
                                               ("Response status from GitHub Packages: "
                                                  +:+ pretty (status response));
                                             CachePut (cacheKey env (strippedPath request))
                                               (cacheResponseOf response);
                                             Console LogInfo
                                               ("Cached response for "
                                                  +:+ targetUrl env (strippedPath request)
                                                  +:+ " for " +:+ pretty cacheTtl
                                                  +:+ " seconds")])))))))).
Proof.
  intros Hpath Hext Hm.
  destruct (c !! targetUrl env (strippedPath request)) as [cached|] eqn:Hc.
  { left. exists cached. split; [reflexivity|].
    exact (fetch_cache_hit upstream _ _ _ _ _ Hpath Hext Hm Hc). }
  right. split; [reflexivity|].
  destruct (JS.truthy (GITHUB_TOKEN env)) eqn:Htok.
  2: { left. split; [reflexivity|].
       exact (fetch_no_token upstream _ _ _ _ Hpath Hext Hm Hc Htok). }
  right. split; [reflexivity|].
  destruct (upstream (newRequest env request (strippedPath request)))
    as [response|error] eqn:Hup.
  2: { left. exists error. split; [reflexivity|].
       exact (fetch_network_failure upstream _ _ _ _ _ Hpath Hext Hm Hc Htok Hup). }
  right. exists response. split; [reflexivity|].
  destruct (ok response) eqn:Hok.
  - right. split; [reflexivity|].
    exact (fetch_upstream_ok upstream _ _ _ _ _ Hpath Hext Hm Hc Htok Hup Hok).
  - left. split; [reflexivity|].
    destruct (acceptsBody (status response)) eqn:Hacc.
    + left. split; [reflexivity|].
      exact (fetch_upstream_not_ok upstream _ _ _ _ _ Hpath Hext Hm Hc Htok Hup Hok Hacc).
    + right. split; [reflexivity|].
      exact (fetch_upstream_body_refused upstream _ _ _ _ _ Hpath Hext Hm Hc Htok Hup
               Hok Hacc).
Qed.

End Cases.

(** ** More on the pipeline *)

Section PipelineProperties.

Context {engine : RegExpEngine}.
Variable upstream : Request -> Completion Response.

(** X4: a path the path authorizer refuses is answered 404 "bad path" with
    the CORS header, whatever the method; the cache is left as it was and
    only the console was written to. *)
Theorem bad_path_404 (request : InboundRequest) (env : Env) (c : Cache)
    (tr : list Event) :
  isAllowedPath env (strippedPath request) = (Returned false, tr) ->
  exists r,
    fetch upstream request env c = (Returned r, c, tr)
    /\ status r = 404
    /\ body r = Some "Invalid request (bad path)"
    /\ headers_get "Access-Control-Allow-Origin" (headers r) = Some "*"
    /\ consoleOnly tr = true.
Proof.
  intros Hpath. exists badPath.
  rewrite (fetch_path_refused upstream _ _ c _ Hpath), app_nil_r.
  repeat split. eapply isAllowedPath_trace; eassumption.
Qed.

(** X5: a path that passes the path authorizer and ends with no configured
    extension is answered 404 "bad extension" with the CORS header, whatever
    the method, without any use of the cache or the upstream. *)
Theorem bad_extension_404 (request : InboundRequest) (env : Env) (c : Cache)
    (tr : list Event) :
  isAllowedPath env (strippedPath request) = (Returned true, tr) ->
  isAllowedExtension env (strippedPath request) = (Returned false, []) ->
  exists r t,
    fetch upstream request env c = (Returned r, c, t)
    /\ status r = 404
    /\ body r = Some "Invalid request (bad extension)"
    /\ headers_get "Access-Control-Allow-Origin" (headers r) = Some "*"
    /\ consoleOnly t = true.
Proof.
  intros Hpath Hext. exists badExtension. eexists.
  split; [exact (fetch_extension_refused upstream _ _ c _ Hpath Hext)|].
  repeat split.
  rewrite consoleOnly_app, (isAllowedPath_trace _ _ _ _ Hpath). reflexivity.
Qed.

(** X6: on an authorized path, a method other than OPTIONS, GET and HEAD is
    answered 405 with the CORS header, without any use of the cache or the
    upstream. *)
Theorem method_not_allowed_405 (request : InboundRequest) (env : Env) (c : Cache)
    (tr : list Event) :
  isAllowedPath env (strippedPath request) = (Returned true, tr) ->
  isAllowedExtension env (strippedPath request) = (Returned true, []) ->
  in_method request <> "OPTIONS" ->
  in_method request <> "GET" ->
  in_method request <> "HEAD" ->
  exists r t,
    fetch upstream request env c = (Returned r, c, t)
    /\ status r = 405
    /\ body r = Some "Method not allowed"
    /\ headers_get "Access-Control-Allow-Origin" (headers r) = Some "*"
    /\ consoleOnly t = true.
Proof.
  intros Hpath Hext Ho Hg Hh. exists methodNotAllowed. eexists.
  split; [exact (fetch_other_method upstream _ _ c _ Hpath Hext Ho Hg Hh)|].
  repeat split.
  rewrite consoleOnly_app, (isAllowedPath_trace _ _ _ _ Hpath). reflexivity.
Qed.

(** X7: a GET or HEAD that finds an entry is answered from it, whatever the
    credential and the upstream are: the entry's status and headers, its body
    for GET; the cache is left as it was, nothing is fetched and nothing is
    stored. *)
Theorem cache_hit_served_from_entry (request : InboundRequest) (env : Env)
    (c : Cache) (tr : list Event) (cached : Response) :
  isAllowedPath env (strippedPath request) = (Returned true, tr) ->
  isAllowedExtension env (strippedPath request) = (Returned true, []) ->
  in_method request = "GET" \/ in_method request = "HEAD" ->
  c !! targetUrl env (strippedPath request) = Some cached ->
  exists r t,
    fetch upstream request env c = (Returned r, c, t)
    /\ status r = status cached
    /\ statusText r = statusText cached
    /\ headers r = headers cached
    /\ (in_method request = "GET" -> body r = body cached)
    /\ (in_method request = "HEAD" -> body r = None)
    /\ noFetch t = true
    /\ noCachePut t = true.
Proof.
  intros Hpath Hext Hm Hc. eexists _, _.
  split; [exact (fetch_cache_hit upstream _ _ _ _ _ Hpath Hext Hm Hc)|].
  unfold shapedFor.
  destruct Hm as [Hm|Hm]; rewrite Hm; simpl;
    (repeat split; try discriminate; try reflexivity;
     apply hit_trace_quiet; eapply isAllowedPath_trace; eassumption).
Qed.

(** X8: on a miss answered [ok] by the upstream, the stored entry has the
    upstream's status, status text and body, [Cache-Control] and the CORS
    header set by the worker over whatever the upstream sent, and every other
    upstream header unchanged; the answer is that entry, shaped for the
    method. *)
Theorem fresh_success_stored_and_annotated (request : InboundRequest) (env : Env)
    (c : Cache) (tr : list Event) (response : Response) :
  isAllowedPath env (strippedPath request) = (Returned true, tr) ->
  isAllowedExtension env (strippedPath request) = (Returned true, []) ->
  in_method request = "GET" \/ in_method request = "HEAD" ->
  c !! targetUrl env (strippedPath request) = None ->
  JS.truthy (GITHUB_TOKEN env) = true ->
  upstream (newRequest env request (strippedPath request)) = Returned response ->
  ok response = true ->
  exists stored c' t,
    fetch upstream request env c = (Returned (shapedFor request stored), c', t)
    /\ c' !! targetUrl env (strippedPath request) = Some stored
    /\ status stored = status response
    /\ statusText stored = statusText response
    /\ body stored = body response
    /\ headers_get "Cache-Control" (headers stored) = Some "public, max-age=300"
    /\ headers_get "Access-Control-Allow-Origin" (headers stored) = Some "*"
    /\ (forall name,
          JS.toLowerCase name <> "cache-control" ->
          JS.toLowerCase name <> "access-control-allow-origin" ->
          headers_get name (headers stored) = headers_get name (headers response)).
Proof.
  intros Hpath Hext Hm Hc Htok Hup Hok.
  exists (cacheResponseOf response). eexists _, _.
  split; [exact (fetch_upstream_ok upstream _ _ _ _ _ Hpath Hext Hm Hc Htok Hup Hok)|].
  split; [apply lookup_insert_eq|].
  split; [reflexivity|]. split; [reflexivity|]. split; [reflexivity|].
  split; [apply cacheResponseOf_annotated|].
  split; [apply cacheResponseOf_annotated|].
  intros name Hcc Hcors.
  unfold headers_get. rewrite cacheResponseOf_headers.
  rewrite !lookup_insert_ne by congruence. reflexivity.
Qed.

(** X9: a HEAD that misses fetches the whole artifact: its own answer has no
    body, but the entry it stores has the upstream's body, and a later GET
    for the same path gets that body from the cache without an upstream
    call. *)
Theorem head_populates_full_entry (headRequest getRequest : InboundRequest)
    (env : Env) (c : Cache) (tr : list Event) (response : Response)
    (upstream' : Request -> Completion Response) :
  isAllowedPath env (strippedPath headRequest) = (Returned true, tr) ->
  isAllowedExtension env (strippedPath headRequest) = (Returned true, []) ->
  in_method headRequest = "HEAD" ->
  c !! targetUrl env (strippedPath headRequest) = None ->
  JS.truthy (GITHUB_TOKEN env) = true ->
  upstream (newRequest env headRequest (strippedPath headRequest)) = Returned response ->
  ok response = true ->
  in_method getRequest = "GET" ->
  strippedPath getRequest = strippedPath headRequest ->
  exists r1 c1 t1 r2 t2,
    fetch upstream headRequest env c = (Returned r1, c1, t1)
    /\ body r1 = None
    /\ status r1 = status response
    /\ fetch upstream' getRequest env c1 = (Returned r2, c1, t2)
    /\ body r2 = body response
    /\ status r2 = status response
    /\ noFetch t2 = true.
Proof.
  intros Hpath Hext Hhead Hc Htok Hup Hok Hget Hsame.
  pose proof (fetch_upstream_ok upstream _ _ _ _ _ Hpath Hext (or_intror Hhead)
                Hc Htok Hup Hok) as Hrun.
  unfold shapedFor in Hrun. rewrite Hhead in Hrun. simpl in Hrun.
  eexists _, _, _, _, _.
  split; [exact Hrun|]. split; [reflexivity|]. split; [reflexivity|].
  rewrite <- Hsame in Hpath, Hext |- *.
  split.
  { apply (fetch_cache_hit upstream' getRequest env _ tr (cacheResponseOf response)
             Hpath Hext (or_introl Hget)).
    apply lookup_insert_eq. }
  unfold shapedFor. rewrite Hget. simpl.
  split; [reflexivity|]. split; [reflexivity|].
  apply hit_trace_quiet. eapply isAllowedPath_trace; eassumption.
Qed.

(** X12: one request calls the upstream at most once, and stores at most as
    often as it called the upstream. *)
Theorem at_most_one_upstream_call (request : InboundRequest) (env : Env) (c : Cache) :
  (fetchCount (fetch upstream request env c).2 <= 1)%nat
  /\ (putCount (fetch upstream request env c).2
      <= fetchCount (fetch upstream request env c).2)%nat.
Proof.
  destruct (fetch_cases upstream request env c)
    as [(outcome & t0 & Hrun & Hcon & _) | (tr & Hpath & Hext & Hm)].
  - rewrite Hrun. cbn [snd].
    pose proof (fetchCount_after_console t0 [] Hcon) as Hf.
    pose proof (putCount_after_console t0 [] Hcon) as Hp.
    rewrite app_nil_r in Hf, Hp. rewrite Hf, Hp.
    unfold fetchCount, putCount. simpl. lia.
  - pose proof (isAllowedPath_trace _ _ _ _ Hpath) as Hcon.
    destruct (proxied_cases upstream request env c tr Hpath Hext Hm)
      as [(cached & _ & Hrun)
         | (_ & [(_ & Hrun)
                | (_ & [(error & _ & Hrun)
                       | (response & _ & [(_ & [(_ & Hrun) | (_ & Hrun)]) | (_ & Hrun)])])])];
      rewrite Hrun; cbn [snd];
      rewrite (fetchCount_after_console _ _ Hcon), (putCount_after_console _ _ Hcon);
      unfold fetchCount, putCount; simpl; lia.
Qed.

(** X13: every store a run issues is under the key of its own path and is
    the run's only store; it comes after the run's own lookup of that key,
    which found nothing, and after its upstream call, and what it stores is
    the response built from the upstream's answer, with
    [Cache-Control: public, max-age=300] and the CORS header. *)
Theorem store_follows_own_miss (request : InboundRequest) (env : Env) (c : Cache)
    (k : Request) (stored : Response) :
  In (CachePut k stored) (fetch upstream request env c).2 ->
  k = cacheKey env (strippedPath request)
  /\ c !! targetUrl env (strippedPath request) = None
  /\ annotated stored
  /\ (exists response,
        upstream (newRequest env request (strippedPath request)) = Returned response
        /\ stored = if ok response then cacheResponseOf response else failOf response)
  /\ exists before after,
       (fetch upstream request env c).2 = before ++ CachePut k stored :: after
       /\ In (CacheMatch k) before
       /\ In (Fetch (newRequest env request (strippedPath request))) before
       /\ noCachePut before = true
       /\ noCachePut after = true.
Proof.
  intros Hin.
  destruct (fetch_cases upstream request env c)
    as [(outcome & t0 & Hrun & Hcon & _) | (tr & Hpath & Hext & Hm)].
  { rewrite Hrun in Hin. destruct (consoleOnly_no_put_in _ _ _ Hcon Hin). }
  pose proof (isAllowedPath_trace _ _ _ _ Hpath) as Hcon.
  assert (Hbefore : forall (events : list Event),
            noCachePut events = true ->
            In (Fetch (newRequest env request (strippedPath request))) events ->
            In (CacheMatch (cacheKey env (strippedPath request)))
              (tr ++ validationLog (strippedPath request)
                  ++ missLog env (strippedPath request) ++ events)
            /\ In (Fetch (newRequest env request (strippedPath request)))
                 (tr ++ validationLog (strippedPath request)
                     ++ missLog env (strippedPath request) ++ events)
            /\ noCachePut (tr ++ validationLog (strippedPath request)
                              ++ missLog env (strippedPath request) ++ events) = true).
  { intros events Hnp Hf. split; [|split].
    - apply in_or_app; right. apply in_or_app; right. left; reflexivity.
    - repeat (apply in_or_app; right). exact Hf.
    - rewrite !noCachePut_app, (consoleOnly_noCachePut _ Hcon), Hnp. reflexivity. }
  destruct (proxied_cases upstream request env c tr Hpath Hext Hm)
    as [(cached & _ & Hrun)
       | (Hc & [(_ & Hrun)
              | (_ & [(error & _ & Hrun)
                     | (response & Hup
                        & [(Hok & [(_ & Hrun) | (_ & Hrun)]) | (Hok & Hrun)])])])];
    rewrite Hrun in Hin |- *; cbn [snd] in Hin |- *;
    apply in_app_or in Hin as [Hin|Hin];
    try (destruct (consoleOnly_no_put_in _ _ _ Hcon Hin));
    simpl in Hin;
    repeat (destruct Hin as [Hin|Hin]; try discriminate Hin);
    try contradiction;
    injection Hin as <- <-.
  - split; [reflexivity|]. split; [exact Hc|]. split; [apply failOf_annotated|].
    split; [exists response; rewrite Hok; auto|].
    eexists (tr ++ validationLog _ ++ missLog _ _ ++ [_; _; _]), [].
    split; [rewrite <- !app_assoc; reflexivity|].
    split; [refine (proj1 (Hbefore _ _ _)); [reflexivity | left; reflexivity]|].
    split; [refine (proj1 (proj2 (Hbefore _ _ _))); [reflexivity | left; reflexivity]|].
    split; [refine (proj2 (proj2 (Hbefore _ _ _))); [reflexivity | left; reflexivity]|].
    reflexivity.
  - split; [reflexivity|]. split; [exact Hc|]. split; [apply cacheResponseOf_annotated|].
    split; [exists response; rewrite Hok; auto|].
    eexists (tr ++ validationLog _ ++ missLog _ _ ++ [_; _]), [_].
    split; [rewrite <- !app_assoc; reflexivity|].
    split; [refine (proj1 (Hbefore _ _ _)); [reflexivity | left; reflexivity]|].
    split; [refine (proj1 (proj2 (Hbefore _ _ _))); [reflexivity | left; reflexivity]|].
    split; [refine (proj2 (proj2 (Hbefore _ _ _))); [reflexivity | left; reflexivity]|].
    reflexivity.
Qed.

(** The one request the handler ever sends upstream, and when. *)
Lemma fetch_event_request (request : InboundRequest) (env : Env) (c : Cache)
    (req : Request) :
  In (Fetch req) (fetch upstream request env c).2 ->
  req = newRequest env request (strippedPath request)
  /\ (in_method request = "GET" \/ in_method request = "HEAD")
  /\ c !! targetUrl env (strippedPath request) = None
  /\ JS.truthy (GITHUB_TOKEN env) = true.
Proof.
  intros Hin.
  destruct (fetch_cases upstream request env c)
    as [(outcome & t0 & Hrun & Hcon & _) | (tr & Hpath & Hext & Hm)].
  - rewrite Hrun in Hin. destruct (consoleOnly_no_fetch_in _ _ Hcon Hin).
  - pose proof (isAllowedPath_trace _ _ _ _ Hpath) as Hcon.
    destruct (proxied_cases upstream request env c tr Hpath Hext Hm)
      as [(cached & _ & Hrun)
         | (Hc & [(_ & Hrun)
                | (Htok & [(error & _ & Hrun)
                          | (response & _ & [(_ & [(_ & Hrun) | (_ & Hrun)]) | (_ & Hrun)])])])];
      rewrite Hrun in Hin; cbn [snd] in Hin;
      apply in_app_or in Hin as [Hin|Hin];
      try (destruct (consoleOnly_no_fetch_in _ _ Hcon Hin));
      simpl in Hin;
      repeat (destruct Hin as [Hin|Hin]; try discriminate Hin);
      try contradiction;
      injection Hin as <-; auto.
Qed.

(** X14: whatever the inbound method, an upstream call is a GET to the
    target URL of the path, made only for a GET or HEAD that missed the cache
    and only with a credential, which it carries as a bearer token next to
    the fixed user agent. *)
Theorem upstream_call_shape (request : InboundRequest) (env : Env) (c : Cache)
    (req : Request) :
  In (Fetch req) (fetch upstream request env c).2 ->
  method req = "GET"
  /\ url req = targetUrl env (strippedPath request)
  /\ (in_method request = "GET" \/ in_method request = "HEAD")
  /\ c !! targetUrl env (strippedPath request) = None
  /\ exists token,
       GITHUB_TOKEN env = Some token /\ token <> EmptyString
       /\ headers_get "Authorization" (req_headers req) = Some ("Bearer " +:+ token)
       /\ headers_get "User-Agent" (req_headers req)
            = Some "Cloudflare-Worker-Maven-Proxy".
Proof.
  intros Hin. apply fetch_event_request in Hin as (-> & Hm & Hc & Htok).
  split; [reflexivity|]. split; [reflexivity|]. split; [exact Hm|].
  split; [exact Hc|].
  apply truthy_inv in Htok as (token & Htoken & Hne).
  exists token. split; [exact Htoken|]. split; [exact Hne|].
  unfold headers_get. rewrite newRequest_headers, Htoken.
  split.
  - change (JS.toLowerCase "Authorization") with "authorization".
    rewrite !lookup_insert_ne by discriminate. apply lookup_insert_eq.
  - change (JS.toLowerCase "User-Agent") with "user-agent".
    rewrite lookup_insert_ne by discriminate. apply lookup_insert_eq.
Qed.

(** X15: an upstream call forwards the caller's [Accept] header when it has
    a non-empty one, and asks for [application/octet-stream] when the header
    is missing or empty. *)
Theorem upstream_accept_header (request : InboundRequest) (env : Env) (c : Cache)
    (req : Request) :
  In (Fetch req) (fetch upstream request env c).2 ->
  headers_get "Accept" (req_headers req)
  = Some match headers_get "Accept" (in_headers request) with
         | Some (String a s) => String a s
         | _ => "application/octet-stream"
         end.
Proof.
  intros Hin. apply fetch_event_request in Hin as (-> & _).
  unfold headers_get at 1. rewrite newRequest_headers.
  change (JS.toLowerCase "Accept") with "accept".
  rewrite !lookup_insert_ne by discriminate. rewrite lookup_insert_eq.
  unfold acceptOf.
  change (JS.toLowerCase "Accept") with "accept".
  destruct (headers_get "Accept" (in_headers request)) as [[|a s]|]; reflexivity.
Qed.

(** X16: a HEAD and a GET that differ in the method only have the same effect
    on the outside: the same trace and the same resulting cache; their
    answers have the same status line and headers, and the HEAD's answer is
    the GET's answer or that answer without its body. *)
Theorem head_and_get_same_effect (getRequest headRequest : InboundRequest)
    (env : Env) (c : Cache) (tr : list Event) :
  isAllowedPath env (strippedPath getRequest) = (Returned true, tr) ->
  isAllowedExtension env (strippedPath getRequest) = (Returned true, []) ->
  in_method getRequest = "GET" ->
  in_method headRequest = "HEAD" ->
  in_pathname headRequest = in_pathname getRequest ->
  in_headers headRequest = in_headers getRequest ->
  exists r r' c' t,
    fetch upstream getRequest env c = (Returned r, c', t)
    /\ fetch upstream headRequest env c = (Returned r', c', t)
    /\ status r' = status r
    /\ statusText r' = statusText r
    /\ headers r' = headers r
    /\ (r' = r \/ r' = stripBody r).
Proof.
  intros Hpath Hext Hget Hhead Hname Hheaders.
  assert (Hsame : strippedPath headRequest = strippedPath getRequest)
    by (unfold strippedPath; now rewrite Hname).
  assert (Hreq : forall path, newRequest env headRequest path
                              = newRequest env getRequest path)
    by (intros path; unfold newRequest, acceptOf; now rewrite Hheaders).
  assert (Hpath' := Hpath). assert (Hext' := Hext).
  rewrite <- Hsame in Hpath', Hext'.
  assert (Hm' : in_method headRequest = "GET" \/ in_method headRequest = "HEAD")
    by (right; exact Hhead).
  destruct (proxied_cases upstream getRequest env c tr Hpath Hext (or_introl Hget))
    as [(cached & Hc & Hrun)
       | (Hc & [(Htok & Hrun)
              | (Htok & [(error & Hup & Hrun)
                        | (response & Hup
                           & [(Hok & [(Hacc & Hrun) | (Hacc & Hrun)]) | (Hok & Hrun)])])])];
    rewrite <- Hsame in Hc; try rewrite <- Hsame, <- Hreq in Hup.
  - pose proof (fetch_cache_hit upstream _ _ _ _ _ Hpath' Hext' Hm' Hc) as Hrun'.
    rewrite Hsame in Hrun'. unfold shapedFor in Hrun, Hrun'.
    rewrite Hget in Hrun. rewrite Hhead in Hrun'. simpl in Hrun, Hrun'.
    eexists _, _, _, _. split; [exact Hrun|]. split; [exact Hrun'|]. auto.
  - pose proof (fetch_no_token upstream _ _ _ _ Hpath' Hext' Hm' Hc Htok) as Hrun'.
    rewrite Hsame in Hrun'.
    eexists _, _, _, _. split; [exact Hrun|]. split; [exact Hrun'|]. auto.
  - pose proof (fetch_network_failure upstream _ _ _ _ _ Hpath' Hext' Hm' Hc Htok Hup)
      as Hrun'.
    rewrite Hreq, Hsame in Hrun'.
    eexists _, _, _, _. split; [exact Hrun|]. split; [exact Hrun'|]. auto.
  - pose proof (fetch_upstream_not_ok upstream _ _ _ _ _ Hpath' Hext' Hm' Hc Htok Hup
                  Hok Hacc) as Hrun'.
    rewrite Hreq, Hsame in Hrun'.
    eexists _, _, _, _. split; [exact Hrun|]. split; [exact Hrun'|]. auto.
  - pose proof (fetch_upstream_body_refused upstream _ _ _ _ _ Hpath' Hext' Hm' Hc Htok
                  Hup Hok Hacc) as Hrun'.
    rewrite Hreq, Hsame in Hrun'.
    eexists _, _, _, _. split; [exact Hrun|]. split; [exact Hrun'|]. auto.
  - pose proof (fetch_upstream_ok upstream _ _ _ _ _ Hpath' Hext' Hm' Hc Htok Hup Hok)
      as Hrun'.
    rewrite Hreq, Hsame in Hrun'. unfold shapedFor in Hrun, Hrun'.
    rewrite Hget in Hrun. rewrite Hhead in Hrun'. simpl in Hrun, Hrun'.
    eexists _, _, _, _. split; [exact Hrun|]. split; [exact Hrun'|]. auto.
Qed.

(** X17: when every cache entry carries the permissive CORS header, every
    answer carries it too, unless it is the 500 internal error, and every
    entry of the resulting cache still carries it. *)
Theorem cors_on_every_answer (request : InboundRequest) (env : Env) (c c' : Cache)
    (r : Response) (t : list Event) :
  (forall k e, c !! k = Some e ->
               headers_get "Access-Control-Allow-Origin" (headers e) = Some "*") ->
  fetch upstream request env c = (Returned r, c', t) ->
  (r = internalError
   \/ headers_get "Access-Control-Allow-Origin" (headers r) = Some "*")
  /\ (forall k e, c' !! k = Some e ->
                  headers_get "Access-Control-Allow-Origin" (headers e) = Some "*").
Proof.
  intros Hinv Hret.
  assert (Hstore : forall stored,
            headers_get "Access-Control-Allow-Origin" (headers stored) = Some "*" ->
            forall k e,
              (<[targetUrl env (strippedPath request) := stored]> c) !! k = Some e ->
              headers_get "Access-Control-Allow-Origin" (headers e) = Some "*").
  { intros stored Hs k e. rewrite lookup_insert.
    destruct (decide (targetUrl env (strippedPath request) = k)).
    - intros H. injection H as <-. exact Hs.
    - apply Hinv. }
  destruct (fetch_cases upstream request env c)
    as [(outcome & t0 & Hrun & _ & Hout) | (tr & Hpath & Hext & Hm)].
  - rewrite Hrun in Hret. injection Hret as -> <- _.
    split; [|exact Hinv]. right.
    destruct Hout as [(e0 & tr & Heq & _) | [(e0 & Heq & _) | Hout]];
      try discriminate Heq.
    destruct Hout as [H|[H|[H|H]]]; injection H as ->; reflexivity.
  - destruct (proxied_cases upstream request env c tr Hpath Hext Hm)
      as [(cached & Hc & Hrun)
         | (_ & [(_ & Hrun)
                | (_ & [(error & _ & Hrun)
                       | (response & _ & [(_ & [(_ & Hrun) | (_ & Hrun)]) | (_ & Hrun)])])])];
      rewrite Hrun in Hret; injection Hret as <- <- _.
    + split; [|exact Hinv]. right.
      unfold shapedFor. destruct (in_method request =? "HEAD")%string;
        simpl; exact (Hinv _ _ Hc).
    + auto.
    + auto.
    + split; [right; apply failOf_annotated|].
      apply Hstore. apply failOf_annotated.
    + auto.
    + split.
      * right. unfold shapedFor. destruct (in_method request =? "HEAD")%string;
          simpl; apply cacheResponseOf_annotated.
      * apply Hstore. apply cacheResponseOf_annotated.
Qed.

End PipelineProperties.

Section Trimming.

Context {engine : RegExpEngine}.

Lemma compilePatterns_trimmed (split1 split2 : list string) :
  map JS.trim split1 = map JS.trim split2 ->
  compilePatterns split1 = compilePatterns split2.
Proof.
  revert split2. induction split1 as [|s1 rest1 IH]; intros [|s2 rest2] H;
    simpl in *; try discriminate; [reflexivity|].
  injection H as Hs Hrest. rewrite Hs, (IH _ Hrest). reflexivity.
Qed.

(** X18: blanks around the entries of the path allow-list do not matter: two
    configured lists whose entries are the same once trimmed decide every
    path alike. *)
Theorem path_patterns_are_trimmed (env1 env2 : Env) (url : string) :
  JS.truthy (ALLOWED_PATHS env1) = true ->
  JS.truthy (ALLOWED_PATHS env2) = true ->
  map JS.trim (JS.split "," (default EmptyString (ALLOWED_PATHS env1)))
    = map JS.trim (JS.split "," (default EmptyString (ALLOWED_PATHS env2))) ->
  (isAllowedPath env1 url).1 = (isAllowedPath env2 url).1.
Proof.
  intros H1 H2 Hsame. unfold isAllowedPath. rewrite H1, H2.
  unfold mbind, Sync_bind. rewrite (compilePatterns_trimmed _ _ Hsame).
  destruct (compilePatterns _) as [[pkgs|e] t]; cbn [fst snd]; [|reflexivity].
  destruct (length pkgs =? 0)%nat; [reflexivity|].
  destruct (anyMatch pkgs url); reflexivity.
Qed.

End Trimming.

(** ** More concrete runs *)

Lemma restricted_patterns_compile (s : string) :
  In s (JS.split "," (default EmptyString (ALLOWED_PATHS Sample.restricted))) ->
  regexp_new (JS.trim s) <> None.
Proof. intros [<-|[<-|[]]]; discriminate. Qed.

(** The second pattern, written with blanks around it, accepts the path. *)
Lemma isAllowedPath_iff_some_pattern_witness :
  exists t, isAllowedPath Sample.restricted "org/lib/x.jar" = (Returned true, t).
Proof.
  destruct (isAllowedPath_iff_some_pattern (engine := Literal.engine)
              Sample.restricted "org/lib/x.jar" eq_refl restricted_patterns_compile)
    as (b & t & Hrun & Hiff).
  assert (Hb : b = true).
  { apply Hiff. exists " org/lib ", "org/lib".
    split; [right; left; reflexivity|]. split; reflexivity. }
  exists t. rewrite Hrun, Hb. reflexivity.
Defined.

Lemma isAllowedPath_logs_denial_witness :
  JS.truthy (ALLOWED_PATHS Sample.restricted) = true.
Proof.
  destruct (isAllowedPath_logs_denial (engine := Literal.engine)
              Sample.restricted "net/other/x.jar" false
              (denialLog Sample.restricted "net/other/x.jar") eq_refl)
    as [[H _] | (_ & _ & H)]; [discriminate H | exact H].
Defined.

Lemma isAllowedExtension_iff_suffix_witness :
  isAllowedExtension Sample.env "a/b.pom" = (Returned true, []).
Proof.
  destruct (isAllowedExtension_iff_suffix Sample.env "a/b.pom" ".jar,.pom" eq_refl)
    as (b & Hrun & Hiff).
  assert (Hb : b = true).
  { apply Hiff. exists ".pom", "a/b". split; [right; left; reflexivity | reflexivity]. }
  rewrite Hrun, Hb. reflexivity.
Defined.

Lemma bad_path_404_witness :
  exists r,
    fetch Sample.serving (Sample.get "/net/other/x.jar") Sample.restricted ∅
      = (Returned r, ∅, denialLog Sample.restricted "net/other/x.jar")
    /\ status r = 404.
Proof.
  destruct (bad_path_404 (engine := Literal.engine) Sample.serving
              (Sample.get "/net/other/x.jar") Sample.restricted ∅
              (denialLog Sample.restricted "net/other/x.jar") eq_refl)
    as (r & Hrun & Hs & _).
  exists r. split; [exact Hrun | exact Hs].
Defined.

Lemma bad_extension_404_witness :
  exists r t,
    fetch Sample.serving (Sample.post "/a/b.txt") Sample.env ∅ = (Returned r, ∅, t)
    /\ status r = 404
    /\ body r = Some "Invalid request (bad extension)"
    /\ headers_get "Access-Control-Allow-Origin" (headers r) = Some "*"
    /\ consoleOnly t = true.
Proof.
  apply (bad_extension_404 (engine := Literal.engine) Sample.serving
           (Sample.post "/a/b.txt") Sample.env ∅ [] eq_refl eq_refl).
Defined.

Lemma method_not_allowed_405_witness :
  exists r t,
    fetch Sample.serving (Sample.post "/a/b.jar") Sample.env ∅ = (Returned r, ∅, t)
    /\ status r = 405
    /\ body r = Some "Method not allowed"
    /\ headers_get "Access-Control-Allow-Origin" (headers r) = Some "*"
    /\ consoleOnly t = true.
Proof.
  apply (method_not_allowed_405 (engine := Literal.engine) Sample.serving
           (Sample.post "/a/b.jar") Sample.env ∅ [] eq_refl eq_refl);
    discriminate.
Defined.

(** A HEAD served from the warm cache, without a credential and with an
    upstream that cannot be reached. *)
Lemma cache_hit_served_from_entry_witness :
  exists r t,
    fetch Sample.unreachable (Sample.head "/a/b.jar") Sample.noToken Sample.warm
      = (Returned r, Sample.warm, t)
    /\ status r = 200
    /\ body r = None
    /\ noFetch t = true
    /\ noCachePut t = true.
Proof.
  destruct (cache_hit_served_from_entry (engine := Literal.engine) Sample.unreachable
              (Sample.head "/a/b.jar") Sample.noToken Sample.warm []
              (cacheResponseOf Sample.artifact)
              eq_refl eq_refl (or_intror eq_refl) eq_refl)
    as (r & t & Hrun & Hs & _ & _ & _ & Hb & Hf & Hp).
  exists r, t. split; [exact Hrun|]. split; [exact Hs|].
  split; [exact (Hb eq_refl)|]. split; [exact Hf | exact Hp].
Defined.

Lemma fresh_success_stored_and_annotated_witness :
  exists stored c' t,
    fetch Sample.serving (Sample.get "/a/b.jar") Sample.env ∅ = (Returned stored, c', t)
    /\ c' !! "https://maven.pkg.github.com/acme/libs/a/b.jar" = Some stored
    /\ body stored = Some "BYTES"
    /\ headers_get "Cache-Control" (headers stored) = Some "public, max-age=300"
    /\ headers_get "Content-Type" (headers stored) = Some "application/java-archive".
Proof.
  destruct (fresh_success_stored_and_annotated (engine := Literal.engine) Sample.serving
              (Sample.get "/a/b.jar") Sample.env ∅ [] Sample.artifact
              eq_refl eq_refl (or_introl eq_refl) (lookup_empty _) eq_refl eq_refl eq_refl)
    as (stored & c' & t & Hrun & Hc & _ & _ & Hb & Hcc & _ & Hother).
  exists stored, c', t. split; [exact Hrun|]. split; [exact Hc|].
  split; [exact Hb|]. split; [exact Hcc|].
  rewrite (Hother "Content-Type"); [reflexivity | discriminate | discriminate].
Defined.

Lemma head_populates_full_entry_witness :
  exists r1 c1 t1 r2 t2,
    fetch Sample.serving (Sample.head "/a/b.jar") Sample.env ∅ = (Returned r1, c1, t1)
    /\ body r1 = None
    /\ fetch Sample.unreachable (Sample.get "/a/b.jar") Sample.env c1
         = (Returned r2, c1, t2)
    /\ body r2 = Some "BYTES"
    /\ noFetch t2 = true.
Proof.
  destruct (head_populates_full_entry (engine := Literal.engine) Sample.serving
              (Sample.head "/a/b.jar") (Sample.get "/a/b.jar") Sample.env ∅ []
              Sample.artifact Sample.unreachable
              eq_refl eq_refl eq_refl (lookup_empty _) eq_refl eq_refl eq_refl
              eq_refl eq_refl)
    as (r1 & c1 & t1 & r2 & t2 & Hrun & Hb1 & _ & Hlater & Hb2 & _ & Hquiet).
  exists r1, c1, t1, r2, t2. auto.
Defined.

(** The call a GET for [/a/b.jar] sends upstream. *)
Lemma upstream_call_shape_witness :
  method (newRequest Sample.env (Sample.get "/a/b.jar") "a/b.jar") = "GET"
  /\ url (newRequest Sample.env (Sample.get "/a/b.jar") "a/b.jar")
       = "https://maven.pkg.github.com/acme/libs/a/b.jar"
  /\ headers_get "Authorization"
       (req_headers (newRequest Sample.env (Sample.get "/a/b.jar") "a/b.jar"))
       = Some "Bearer s3cret".
Proof.
  assert (Hin : In (Fetch (newRequest Sample.env (Sample.get "/a/b.jar") "a/b.jar"))
                  (fetch Sample.serving (Sample.get "/a/b.jar") Sample.env ∅).2)
    by (vm_compute; do 4 right; left; reflexivity).
  destruct (upstream_call_shape (engine := Literal.engine) Sample.serving
              (Sample.get "/a/b.jar") Sample.env ∅
              (newRequest Sample.env (Sample.get "/a/b.jar") "a/b.jar") Hin)
    as (Hm & Hu & _ & _ & token & Htoken & _ & Hauth & _).
  split; [exact Hm|]. split; [exact Hu|].
  injection Htoken as <-. exact Hauth.
Defined.

Lemma upstream_accept_header_witness :
  headers_get "Accept"
    (req_headers (newRequest Sample.env (Sample.getPom "/a/b.pom") "a/b.pom"))
  = Some "application/xml".
Proof.
  assert (Hin : In (Fetch (newRequest Sample.env (Sample.getPom "/a/b.pom") "a/b.pom"))
                  (fetch Sample.serving (Sample.getPom "/a/b.pom") Sample.env ∅).2)
    by (vm_compute; do 4 right; left; reflexivity).
  apply (upstream_accept_header (engine := Literal.engine) Sample.serving
           (Sample.getPom "/a/b.pom") Sample.env ∅
           (newRequest Sample.env (Sample.getPom "/a/b.pom") "a/b.pom") Hin).
Defined.

Lemma head_and_get_same_effect_witness :
  exists r r' c' t,
    fetch Sample.unavailable (Sample.get "/a/b.jar") Sample.env ∅ = (Returned r, c', t)
    /\ fetch Sample.unavailable (Sample.head "/a/b.jar") Sample.env ∅
         = (Returned r', c', t)
    /\ status r' = status r
    /\ statusText r' = statusText r
    /\ headers r' = headers r
    /\ (r' = r \/ r' = stripBody r).
Proof.
  apply (head_and_get_same_effect (engine := Literal.engine) Sample.unavailable
           (Sample.get "/a/b.jar") (Sample.head "/a/b.jar") Sample.env ∅ []
           eq_refl eq_refl eq_refl eq_refl eq_refl eq_refl).
Defined.

Lemma warm_entries_carry_cors (k : string) (e : Response) :
  Sample.warm !! k = Some e ->
  headers_get "Access-Control-Allow-Origin" (headers e) = Some "*".
Proof.
  unfold Sample.warm. intros H. apply lookup_singleton_Some in H as [_ <-].
  reflexivity.
Qed.

Lemma cors_on_every_answer_witness :
  headers_get "Access-Control-Allow-Origin"
    (headers (cacheResponseOf Sample.artifact)) = Some "*".
Proof.
  destruct (cors_on_every_answer (engine := Literal.engine) Sample.unreachable
              (Sample.get "/a/b.jar") Sample.env Sample.warm Sample.warm
              (cacheResponseOf Sample.artifact)
              (fetch Sample.unreachable (Sample.get "/a/b.jar") Sample.env Sample.warm).2
              warm_entries_carry_cors eq_refl)
    as [[H|H] _]; [discriminate H | exact H].
Defined.

Lemma path_patterns_are_trimmed_witness :
  (isAllowedPath Sample.restricted "org/lib/x.jar").1
  = (isAllowedPath Sample.restrictedTight "org/lib/x.jar").1.
Proof.
  apply (path_patterns_are_trimmed (engine := Literal.engine)
           Sample.restricted Sample.restrictedTight "org/lib/x.jar"
           eq_refl eq_refl eq_refl).
Defined.

(** The one store of a GET that fetched the artifact. *)
Lemma store_follows_own_miss_witness :
  exists before after,
    (fetch Sample.serving (Sample.get "/a/b.jar") Sample.env ∅).2
      = before ++ CachePut (cacheKey Sample.env "a/b.jar")
                    (cacheResponseOf Sample.artifact) :: after
    /\ In (CacheMatch (cacheKey Sample.env "a/b.jar")) before
    /\ noCachePut before = true
    /\ noCachePut after = true.
Proof.
  assert (Hin : In (CachePut (cacheKey Sample.env "a/b.jar")
                      (cacheResponseOf Sample.artifact))
                  (fetch Sample.serving (Sample.get "/a/b.jar") Sample.env ∅).2)
    by (vm_compute; do 6 right; left; reflexivity).
  destruct (store_follows_own_miss (engine := Literal.engine) Sample.serving
              (Sample.get "/a/b.jar") Sample.env ∅
              (cacheKey Sample.env "a/b.jar") (cacheResponseOf Sample.artifact) Hin)
    as (_ & _ & _ & _ & before & after & Htrace & Hmatch & _ & Hb & Ha).
  exists before, after. auto.
Defined.
